(** * Report generator: the text-to-document formatter of [app.py]

    A shallow embedding of [src/app.py]: the [str] methods the program
    calls, the backtracking matcher behind [re.match], the part of the
    document library the formatter drives, the two workers
    [generate_report_with_gemini] and [text_to_word_buffer], and [main].

    Conventions.
    - A Python [str] is a [string]; a character is a code point below 256.
      [isspace], [isdecimal] and [upper] follow Python on that range.
      The micro sign (181) and the y with diaeresis (255) are not part
      of the alphabet: their upper case is no code point below 256, and
      [upper] leaves them as they are.
    - A Python exception is modelled by its message ([str(e)]), which is
      all the program ever looks at.
    - The remote model, the XML layer under the document library and the
      serialiser are not part of the repository: they are parameters. *)

From Stdlib Require Import String Ascii List Arith Bool Lia ZArith QArith.
From Stdlib Require Import DecimalString.
Import ListNotations.

Local Open Scope list_scope.
Local Open Scope nat_scope.
Local Open Scope string_scope.

Set Implicit Arguments.

(* ------------------------------------------------------------------ *)
(** ** Python [str] methods used by the program *)

Module PyStr.

(** The line feed, ['\n']. *)
Definition LF : ascii := ascii_of_nat 10.

(** [str.isspace] on one character (code points below 256). *)
Definition isspace (c : ascii) : bool :=
  let n := nat_of_ascii c in
  (((9 <=? n) && (n <=? 13)) || ((28 <=? n) && (n <=? 32))
   || (n =? 133) || (n =? 160))%nat.

(** [str.isdecimal] on one character: what [\d] accepts. *)
Definition isdecimal (c : ascii) : bool :=
  let n := nat_of_ascii c in ((48 <=? n) && (n <=? 57))%nat.

(** [s.lstrip()] *)
Fixpoint lstrip (s : string) : string :=
  match s with
  | EmptyString => EmptyString
  | String c s' => if isspace c then lstrip s' else s
  end.

(** [s.rstrip()] *)
Fixpoint rstrip (s : string) : string :=
  match s with
  | EmptyString => EmptyString
  | String c s' =>
      match rstrip s' with
      | EmptyString => if isspace c then EmptyString else String c EmptyString
      | r => String c r
      end
  end.

(** [s.strip()] *)
Definition strip (s : string) : string := lstrip (rstrip s).

(** [s.split(sep)] for a one-character separator: never the empty list. *)
Fixpoint split (sep : ascii) (s : string) : list string :=
  match s with
  | EmptyString => [EmptyString]
  | String c s' =>
      if Ascii.eqb c sep then EmptyString :: split sep s'
      else match split sep s' with
           | h :: t => String c h :: t
           | [] => [String c EmptyString]
           end
  end.

(** [s.split()] without argument: the maximal runs of non-space
    characters.  [cur] is the run being read, in reverse. *)
Fixpoint split_ws_aux (cur : list ascii) (s : string) : list string :=
  let flush := match cur with
               | [] => []
               | _ => [string_of_list_ascii (rev cur)]
               end in
  match s with
  | EmptyString => flush
  | String c s' =>
      if isspace c then (flush ++ split_ws_aux [] s')%list
      else split_ws_aux (c :: cur) s'
  end.

Definition split_ws (s : string) : list string := split_ws_aux [] s.

(** The upper case of one character, a string: the letters a to z and
    the Latin-1 letters 224 to 254 (but the division sign, 247) move
    down by 32, and the sharp s (223) becomes "SS". *)
Definition upper_char (c : ascii) : string :=
  let n := nat_of_ascii c in
  if (((97 <=? n) && (n <=? 122))
      || ((224 <=? n) && (n <=? 246))
      || ((248 <=? n) && (n <=? 254)))%nat
  then String (ascii_of_nat (n - 32)) EmptyString
  else if (n =? 223)%nat then "SS"
  else String c EmptyString.

(** [s.upper()] *)
Fixpoint upper (s : string) : string :=
  match s with
  | EmptyString => EmptyString
  | String c s' => upper_char c ++ upper s'
  end.

(** [s.count(c)] for a one-character argument. *)
Fixpoint count (c : ascii) (s : string) : nat :=
  match s with
  | EmptyString => 0
  | String a s' => (if Ascii.eqb a c then 1 else 0) + count c s'
  end.

(** [s.replace(old, new)] for a one-character [old]. *)
Fixpoint replace (old : ascii) (new : string) (s : string) : string :=
  match s with
  | EmptyString => EmptyString
  | String a s' =>
      if Ascii.eqb a old then new ++ replace old new s'
      else String a (replace old new s')
  end.

(** [str(n)] for a non-negative integer. *)
Definition str_of_nat (n : nat) : string :=
  NilEmpty.string_of_uint (Nat.to_uint n).

(** Truth value of a string: [if s:]. *)
Definition truthy (s : string) : bool :=
  match s with EmptyString => false | _ => true end.

End PyStr.

(* ------------------------------------------------------------------ *)
(** ** The matcher behind [re.match]

    A backtracking matcher in continuation-passing style: alternatives
    are tried in the order of Python's engine (a greedy repetition tries
    one more iteration first, a lazy one tries to stop first), and the
    first complete match wins. *)

Module Re.

Inductive regex : Type :=
| Chr (c : ascii)            (* a literal character *)
| Digit                      (* \d *)
| Space                      (* \s *)
| AnyChar                    (* .   any character but the line feed *)
| Bol                        (* ^ *)
| Eol                        (* $ *)
| Seq (r1 r2 : regex)
| Star (greedy : bool) (r : regex)   (* r* when greedy, r*? when lazy *)
| Group (i : nat) (r : regex).

(** [r+] is [r] followed by [r*]. *)
Definition Plus (r : regex) : regex := Seq r (Star true r).

(** The state of a match attempt: characters consumed so far, the rest
    of the subject, and the spans of the groups closed so far (latest
    first). *)
Record mstate : Type := MState {
  pos : nat;
  rest : string;
  caps : list (nat * (nat * nat))
}.

Definition advance (st : mstate) (s' : string) : mstate :=
  MState (S (pos st)) s' (caps st).

Definition set_cap (i start : nat) (st : mstate) : mstate :=
  MState (pos st) (rest st) ((i, (start, pos st)) :: caps st).

(** One character accepted by the class [p]. *)
Definition exec_class (p : ascii -> bool) (st : mstate)
    (k : mstate -> option mstate) : option mstate :=
  match rest st with
  | String a s' => if p a then k (advance st s') else None
  | EmptyString => None
  end.

Definition orelse (a b : option mstate) : option mstate :=
  match a with Some m => Some m | None => b end.

(** The loop of a greedy repetition: try one more iteration of [body]
    first, stop otherwise.  An iteration that consumes nothing is
    abandoned, so [n], the length of the rest of the subject, bounds the
    number of iterations. *)
Fixpoint star_loop (body : mstate -> (mstate -> option mstate) -> option mstate)
    (k : mstate -> option mstate) (n : nat) (st : mstate) {struct n}
    : option mstate :=
  match n with
  | 0 => k st
  | S n' =>
      orelse
        (body st (fun st' =>
           if (pos st <? pos st')%nat then star_loop body k n' st' else None))
        (k st)
  end.

(** The loop of a lazy repetition: try to stop first. *)
Fixpoint lazy_loop (body : mstate -> (mstate -> option mstate) -> option mstate)
    (k : mstate -> option mstate) (n : nat) (st : mstate) {struct n}
    : option mstate :=
  orelse (k st)
    match n with
    | 0 => None
    | S n' =>
        body st (fun st' =>
          if (pos st <? pos st')%nat then lazy_loop body k n' st' else None)
    end.

Fixpoint exec (r : regex) (st : mstate) (k : mstate -> option mstate)
    {struct r} : option mstate :=
  match r with
  | Chr c => exec_class (Ascii.eqb c) st k
  | Digit => exec_class PyStr.isdecimal st k
  | Space => exec_class PyStr.isspace st k
  | AnyChar => exec_class (fun a => negb (Ascii.eqb a PyStr.LF)) st k
  | Bol => if (pos st =? 0)%nat then k st else None
  | Eol =>
      match rest st with
      | EmptyString => k st
      | String a EmptyString => if Ascii.eqb a PyStr.LF then k st else None
      | _ => None
      end
  | Seq r1 r2 => exec r1 st (fun st' => exec r2 st' k)
  | Star greedy r0 =>
      (if greedy then star_loop else lazy_loop)
        (exec r0) k (String.length (rest st)) st
  | Group i r0 => exec r0 st (fun st' => k (set_cap i (pos st) st'))
  end.

(** A match object: the subject and the final state. *)
Record match_object : Type := MatchObject {
  subject : string;
  final : mstate
}.

(** [re.match(r, s)]: a match anchored at the start of [s]. *)
Definition re_match (r : regex) (s : string) : option match_object :=
  match exec r (MState 0 s []) (fun st => Some st) with
  | Some st => Some (MatchObject s st)
  | None => None
  end.

Fixpoint lookup_cap (i : nat) (cs : list (nat * (nat * nat)))
    : option (nat * nat) :=
  match cs with
  | [] => None
  | (j, span) :: cs' => if (i =? j)%nat then Some span else lookup_cap i cs'
  end.

(** [m.group(i)]; [None] when the group took no part in the match. *)
Definition group (m : match_object) (i : nat) : option string :=
  match lookup_cap i (caps (final m)) with
  | Some (b, e) => Some (substring b (e - b) (subject m))
  | None => None
  end.

End Re.

Import PyStr Re.

(** The pattern of line 110: start of line; group 1, the numbering, is
    one or more digits then any number of group 2, a dot and one or more
    digits; any white space; group 3, a lazy run of any characters; a
    colon; end of line. *)
Definition header_re : regex :=
  Seq Bol
   (Seq (Group 1
          (Seq (Plus Digit)
               (Star true (Group 2 (Seq (Chr "."%char) (Plus Digit))))))
    (Seq (Star true Space)
     (Seq (Group 3 (Star false AnyChar))
      (Seq (Chr ":"%char) Eol)))).

Definition header_match (clean_line : string) : option match_object :=
  re_match header_re clean_line.

(* ------------------------------------------------------------------ *)
(** ** Exceptions *)

(** The outcome of a computation that may raise; an exception is its
    message. *)
Inductive result (A : Type) : Type :=
| Ok (a : A)
| Raise (msg : string).

Arguments Ok {A} a.
Arguments Raise {A} msg.

(** [o.attr] where [o] may be [None]. *)
Definition getattr (o : option string) (attr : string) : result string :=
  match o with
  | Some s => Ok s
  | None => Raise ("'NoneType' object has no attribute '" ++ attr ++ "'")
  end.

(* ------------------------------------------------------------------ *)
(** ** The document library, as far as the formatter drives it *)

Module Docx.

Inductive style : Type :=
| Normal
| Title
| Heading (level : nat).

Inductive WD_ALIGN_PARAGRAPH : Type := LEFT | CENTER | RIGHT | JUSTIFY.

Inductive WD_LINE_SPACING : Type :=
| SINGLE | ONE_POINT_FIVE | DOUBLE | AT_LEAST | EXACTLY | MULTIPLE.

(** Lengths are integers in English Metric Units. *)
Definition Pt (n : Z) : Z := (n * 12700)%Z.
Definition Inches (n : Z) : Z := (n * 914400)%Z.

Record font : Type := Font {
  size : option Z;
  name : option string
}.

Record run : Type := Run {
  text : string;
  run_font : font
}.

Record paragraph_format : Type := ParagraphFormat {
  line_spacing_rule : option WD_LINE_SPACING;
  line_spacing : option Q
}.

Record paragraph : Type := Paragraph {
  par_style : style;
  runs : list run;
  alignment : option WD_ALIGN_PARAGRAPH;
  par_format : paragraph_format
}.

Record section : Type := Section_ {
  top_margin : Z;
  bottom_margin : Z;
  left_margin : Z;
  right_margin : Z
}.

Record document : Type := Document_ {
  sections : list section;
  paragraphs : list paragraph
}.

(** What the program cannot see into: which run texts the XML layer
    refuses (and with which message), and the serialiser. *)
Class Library : Type := {
  payload : Type;
  xml_error : string -> option string;
  save : document -> result payload
}.

(** [Document()]: the default template, one section and no paragraph. *)
Definition Document : document :=
  Document_ [Section_ (Inches 1) (Inches 1) 1143000 1143000] [].

(** Computations on the document under construction. *)
Definition M (A : Type) : Type := document -> result (A * document).

Definition ret {A} (a : A) : M A := fun d => Ok (a, d).

Definition bind {A B} (m : M A) (f : A -> M B) : M B :=
  fun d => match m d with
           | Ok (a, d') => f a d'
           | Raise e => Raise e
           end.

Definition raise {A} (msg : string) : M A := fun _ => Raise msg.

Definition lift {A} (r : result A) : M A :=
  fun d => match r with Ok a => Ok (a, d) | Raise e => Raise e end.

Definition IndexError : string := "list index out of range".

(** Replace the element of index [i] by its image under [f]. *)
Fixpoint update {A} (i : nat) (f : A -> result A) (l : list A)
    : result (list A) :=
  match l, i with
  | [], _ => Raise IndexError
  | x :: l', 0 =>
      match f x with Ok y => Ok (y :: l') | Raise e => Raise e end
  | x :: l', S i' =>
      match update i' f l' with
      | Ok l'' => Ok (x :: l'')
      | Raise e => Raise e
      end
  end.

(** A paragraph object is the index of the paragraph in the body; a
    mutation through the object changes the document. *)
Definition paragraph_ref : Type := nat.

Definition modify_paragraph (h : paragraph_ref)
    (f : paragraph -> result paragraph) : M unit :=
  fun d => match update h f (paragraphs d) with
           | Ok ps => Ok (tt, Document_ (sections d) ps)
           | Raise e => Raise e
           end.

(** [document.sections[i].<margins> = ...] *)
Definition modify_section (i : nat) (f : section -> section) : M unit :=
  fun d => match update i (fun s => Ok (f s)) (sections d) with
           | Ok ss => Ok (tt, Document_ ss (paragraphs d))
           | Raise e => Raise e
           end.

Section WithLibrary.
Context {lib : Library}.

(** [document.add_paragraph(text, style)]: a run is added only for a
    non-empty text. *)
Definition add_paragraph_styled (txt : string) (st : style)
    : M paragraph_ref :=
  fun d =>
    let new_runs :=
      if truthy txt then
        match xml_error txt with
        | None => Ok [Run txt (Font None None)]
        | Some e => Raise e
        end
      else Ok [] in
    match new_runs with
    | Ok rs =>
        Ok (List.length (paragraphs d),
            Document_ (sections d)
              (paragraphs d
               ++ [Paragraph st rs None (ParagraphFormat None None)])%list)
    | Raise e => Raise e
    end.

(** [document.add_paragraph(text)] *)
Definition add_paragraph (txt : string) : M paragraph_ref :=
  add_paragraph_styled txt Normal.

(** [document.add_heading(text, level)] *)
Definition add_heading (txt : string) (level : nat) : M paragraph_ref :=
  if (9 <? level)%nat then
    raise ("level must be in range 0-9, got " ++ str_of_nat level)
  else add_paragraph_styled txt (match level with 0 => Title | _ => Heading level end).

End WithLibrary.

(** [p.alignment = a] *)
Definition set_alignment (h : paragraph_ref) (a : WD_ALIGN_PARAGRAPH)
    : M unit :=
  modify_paragraph h (fun p =>
    Ok (Paragraph (par_style p) (runs p) (Some a) (par_format p))).

(** [p.runs[i].font.<field> = ...] *)
Definition modify_run_font (h : paragraph_ref) (i : nat) (f : font -> font)
    : M unit :=
  modify_paragraph h (fun p =>
    match update i (fun r => Ok (Run (text r) (f (run_font r)))) (runs p) with
    | Ok rs => Ok (Paragraph (par_style p) rs (alignment p) (par_format p))
    | Raise e => Raise e
    end).

Definition set_font_size (v : Z) (f : font) : font := Font (Some v) (name f).
Definition set_font_name (v : string) (f : font) : font := Font (size f) (Some v).

(** [p.paragraph_format.<field> = ...] *)
Definition modify_paragraph_format (h : paragraph_ref)
    (f : paragraph_format -> paragraph_format) : M unit :=
  modify_paragraph h (fun p =>
    Ok (Paragraph (par_style p) (runs p) (alignment p) (f (par_format p)))).

Definition set_line_spacing_rule (v : WD_LINE_SPACING) (f : paragraph_format)
    : paragraph_format := ParagraphFormat (Some v) (line_spacing f).
Definition set_line_spacing (v : Q) (f : paragraph_format)
    : paragraph_format := ParagraphFormat (line_spacing_rule f) (Some v).

End Docx.

Import Docx.

Declare Scope docx_scope.
Delimit Scope docx_scope with docx.
Notation "x <- m ;; k" := (bind m (fun x => k))
  (at level 61, m at next level, right associativity) : docx_scope.
Notation "m ;; k" := (bind m (fun _ => k))
  (at level 61, right associativity) : docx_scope.
Local Open Scope docx_scope.

(** [for x in xs: body(x)] *)
Fixpoint for_each {A} (xs : list A) (body : A -> M unit) : M unit :=
  match xs with
  | [] => ret tt
  | x :: xs' => body x ;; for_each xs' body
  end.

(* ------------------------------------------------------------------ *)
(** ** The report requester *)

Definition prompt_head : string := "
    Generate a **comprehensive, detailed, and professionally structured project report** for the topic: ".

Definition prompt_tail : string := ". 
    
    CRITICAL TONE AND STYLE INSTRUCTIONS:
    1. Write in an **active voice**, demonstrating critical analysis and nuanced understanding.
    2. Use sophisticated academic language and strong transition words to ensure the text flows naturally, avoiding a robotic or repetitive style.
    3. Back up claims with logical arguments, making the information feel authoritative and expert-written.
    
    To reach the requirement of 5 to 7 pages, the total text must be between **3000 and 4500 words**.
    
    Structure the report with two levels of headings, ensuring clear numbering followed by a colon for parsing:
    
    1. Introduction: (Define the problem, background, and scope)
    1.1 Background and Context:
    1.2 Problem Statement:
    
    2. Literature Review: (Analyze existing solutions and research gaps)
    2.1 Current State of Research:
    2.2 Identification of Gaps:
    
    3. Project Objectives: (Clear, measurable goals)
    3.1 Specific Aims:
    3.2 Deliverables:
    
    4. Detailed Methodology and System Design: (Technical approach, materials, and procedures)
    4.1 Proposed Architecture:
    4.2 Data Collection and Analysis Methods:
    
    5. Implementation Details and Results Analysis: 
    5.1 Execution Plan:
    5.2 Expected Outcomes and Validation:
    
    6. Conclusion and Future Work: 
    6.1 Summary of Findings:
    6.2 Future Scope and Recommendations:

    Format the content with numbered section headers followed by a colon (e.g., '1. Introduction:', '1.1 Background and Context:', etc.). 
    Ensure a blank line separates each section header and its preceding paragraph.
    Do NOT use any Markdown (like #, *, or **).
    ".

(** The remote model: a prompt gives the text of the response, or the
    call (or reading the text of the response) raises. *)
Definition model : Type := string -> result string.

(** Lines 30 to 78. *)
Definition generate_report_with_gemini (topic : string) (mdl : model)
    : option string * option string :=
  let prompt := prompt_head ++ topic ++ prompt_tail in
  match mdl prompt with
  | Ok response_text => (Some response_text, None)
  | Raise e =>
      (None,
       Some ("Report Generation Error: " ++ e
             ++ ". Please check your API key and input."))
  end.

(* ------------------------------------------------------------------ *)
(** ** The document formatter *)

Section Formatter.
Context {lib : Library}.

(** The body of the loop, lines 105 to 135. *)
Definition format_line (line : string) : M unit :=
  let clean_line := strip line in
  if negb (truthy clean_line) then
    _ <- add_paragraph "" ;; ret tt
  else
    match header_match clean_line with
    | Some m =>
        let numbering := group m 1 in
        g3 <- lift (getattr (group m 3) "strip") ;;
        let title := upper (strip g3) in
        num <- lift (getattr numbering "count") ;;
        if (count "."%char num =? 0)%nat then
          heading <- add_heading (num ++ " " ++ title) 1 ;;
          modify_run_font heading 0 (set_font_size (Pt 16)) ;;
          modify_run_font heading 0 (set_font_name "Times New Roman")
        else
          heading <- add_heading (num ++ " " ++ title) 2 ;;
          modify_run_font heading 0 (set_font_size (Pt 14)) ;;
          modify_run_font heading 0 (set_font_name "Times New Roman")
    | None =>
        paragraph <- add_paragraph clean_line ;;
        set_alignment paragraph JUSTIFY ;;
        modify_run_font paragraph 0 (set_font_name "Times New Roman") ;;
        modify_run_font paragraph 0 (set_font_size (Pt 12)) ;;
        modify_paragraph_format paragraph (set_line_spacing_rule MULTIPLE) ;;
        modify_paragraph_format paragraph (set_line_spacing (3 # 2))
    end.

(** Lines 88 to 135: the document is built.  [text_content] is [None]
    for Python's [None]. *)
Definition format_document (text_content : option string) (topic : string)
    : M unit :=
  modify_section 0 (fun s =>
    Section_ (Inches 1) (bottom_margin s) (left_margin s) (right_margin s)) ;;
  modify_section 0 (fun s =>
    Section_ (top_margin s) (Inches 1) (left_margin s) (right_margin s)) ;;
  modify_section 0 (fun s =>
    Section_ (top_margin s) (bottom_margin s) (Inches 1) (right_margin s)) ;;
  modify_section 0 (fun s =>
    Section_ (top_margin s) (bottom_margin s) (left_margin s) (Inches 1)) ;;
  topic_heading <- add_heading (upper topic) 0 ;;
  set_alignment topic_heading CENTER ;;
  modify_run_font topic_heading 0 (set_font_size (Pt 20)) ;;
  modify_run_font topic_heading 0 (set_font_name "Times New Roman") ;;
  _ <- add_paragraph "" ;;
  _ <- add_paragraph "" ;;
  txt <- lift (getattr text_content "strip") ;;
  let lines := split LF (strip txt) in
  for_each lines format_line.

(** The document built from the empty template. *)
Definition built_document (text_content : option string) (topic : string)
    : result document :=
  match format_document text_content topic Document with
  | Ok (_, d) => Ok d
  | Raise e => Raise e
  end.

(** The body of the [try], lines 88 to 142.  The buffer is returned
    rewound, so it is modelled by its content. *)
Definition try_body (text_content : option string) (topic : string)
    : result payload :=
  match format_document text_content topic Document with
  | Ok (_, d) => save d
  | Raise e => Raise e
  end.

(** Lines 82 to 144. *)
Definition text_to_word_buffer (text_content : option string)
    (topic : string) : option payload * option string :=
  match try_body text_content topic with
  | Ok doc_io => (Some doc_io, None)
  | Raise e => (None, Some ("Word Conversion Error: " ++ e))
  end.

End Formatter.

(* ------------------------------------------------------------------ *)
(** ** The page: [main]

    A run of the script is modelled by the trace of what it shows.  The
    calls of the two workers are recorded in the trace as well, so that
    "is never invoked" can be said. *)

(** An exception raised while the model is initialised: the handlers
    of lines 22 and 25 tell a [KeyError] from any other exception, of
    which the message is shown. *)
Inductive init_exception : Type :=
| KeyError
| OtherException (msg : string).

Inductive attempt (A : Type) : Type :=
| Done (a : A)
| Fails (e : init_exception).

Arguments Done {A} a.
Arguments Fails {A} e.

Section Page.
Context {lib : Library}.

Inductive event : Type :=
| St_set_page_config (page_title layout : string)
| St_title (body : string)
| St_markdown (body : string)
| St_text_input (label placeholder : string)
| St_button (label : string)
| St_error (body : string)
| St_info (body : string)
| St_spinner (body : string)
| St_success (body : string)
| St_download_button (label : string) (data : option payload)
    (file_name mime : string)
| St_stop
| Call_generate (topic : string)
| Call_format (text_content : option string) (topic : string)
| Uncaught (msg : string).

(** What [get_gemini_model] depends on: what [st.cache_resource] holds
    from an earlier run, the look-up of the key in the secret store
    (line 19) and the configuration of the client (lines 20 and 21). *)
Record environment : Type := Environment {
  cached_model : option model;
  secrets_GOOGLE_API_KEY : attempt string;
  configure : string -> attempt model
}.

(** Lines 18 to 21, the body of the [try]: an exception of the look-up
    or of the configuration leaves it. *)
Definition initialise_model (env : environment) : attempt model :=
  match secrets_GOOGLE_API_KEY env with
  | Done api_key => configure env api_key
  | Fails e => Fails e
  end.

(** Lines 14 to 27: the model, or the events shown before the script is
    stopped.  A model the cache holds is returned as it is; otherwise
    the handler is chosen by the class of the exception, wherever in
    the [try] it was raised. *)
Definition get_gemini_model (env : environment) : list event + model :=
  match cached_model env with
  | Some mdl => inr mdl
  | None =>
      match initialise_model env with
      | Done mdl => inr mdl
      | Fails KeyError =>
          inl [St_error "Error: GOOGLE_API_KEY not found in Streamlit secrets.";
               St_stop]
      | Fails (OtherException e) =>
          inl [St_error ("Error configuring Gemini: " ++ e); St_stop]
      end
  end.

(** What the cache holds after the call: the model, once one has been
    returned; a call that stops the script caches nothing. *)
Definition cached_after_call (env : environment) : option model :=
  match get_gemini_model env with
  | inr mdl => Some mdl
  | inl _ => cached_model env
  end.

(** Truth value of a message that may be [None]: [if error:]. *)
Definition truthy_opt (o : option string) : bool :=
  match o with Some s => truthy s | None => false end.

Definition message (o : option string) : string :=
  match o with Some s => s | None => "None" end.

(** Line 196. *)
Definition filename (topic : string) : string :=
  replace "/"%char "_" (replace " "%char "_" topic) ++ "_report.docx".

Definition docx_mime : string :=
  "application/vnd.openxmlformats-officedocument.wordprocessingml.document".

(** Lines 148 to 206.  [topic] is the content of the input field and
    [clicked] the state of the button. *)
Definition main (env : environment) (topic : string) (clicked : bool)
    : list event :=
  [St_set_page_config "Gemini AI Project Report Generator" "centered";
   St_title "📄 AI-Powered Project Report Generator";
   St_markdown "Enter a project topic below. Gemini will generate a professional, structured, and in-depth **5-7 page** (3000-4500 words) report that you can download as a DOCX file.";
   St_markdown "---";
   St_text_input "Enter Your Project Topic:"
     "e.g., The Impact of Quantum Computing on Financial Cryptography";
   St_button "Generate & Download Report"]
  ++
  (if clicked then
    if negb (truthy topic) then
      [St_error "Please enter a project topic to begin generation."]
    else
      match get_gemini_model env with
      | inl stopped => stopped
      | inr mdl =>
          [St_info "Generation started. This process is intensive and may take up to **60 seconds** to complete. Please wait...";
           St_spinner "Step 1/2: Generating the 3000+ word report content...";
           Call_generate topic]
          ++
          let '(report_text, error) := generate_report_with_gemini topic mdl in
          if truthy_opt error then [St_error (message error)]
          else
            [St_spinner "Step 2/2: Formatting content into a professional DOCX document...";
             Call_format report_text topic]
            ++
            let '(doc_buffer, word_error) :=
              text_to_word_buffer report_text topic in
            if truthy_opt word_error then [St_error (message word_error)]
            else
              [St_success "✅ Report Generation Complete! Download your DOCX file below.";
               St_download_button "Download DOCX Report" doc_buffer
                 (filename topic) docx_mime;
               match getattr report_text "split" with
               | Ok t =>
                   St_markdown
                     ("*(Words Generated: ~"
                      ++ str_of_nat (List.length (split_ws t)) ++ " words)*")
               | Raise e => Uncaught e
               end]
      end
  else [])%list.

(** What the cache holds after a run of the page: the model is asked
    for only after a click with a topic. *)
Definition cached_after (env : environment) (topic : string)
    (clicked : bool) : option model :=
  if clicked && truthy topic then cached_after_call env
  else cached_model env.

End Page.


(* ------------------------------------------------------------------ *)
(** ** Vocabulary of the specification *)

(** Every character of [s] satisfies [p]. *)
Fixpoint string_forallb (p : ascii -> bool) (s : string) : bool :=
  match s with
  | EmptyString => true
  | String a s' => p a && string_forallb p s'
  end.

Definition not_LF (a : ascii) : bool := negb (Ascii.eqb a LF).

(** The last character of a string, if any. *)
Fixpoint last_char (s : string) : option ascii :=
  match s with
  | EmptyString => None
  | String a EmptyString => Some a
  | String _ s' => last_char s'
  end.

Definition first_char (s : string) : option ascii :=
  match s with
  | EmptyString => None
  | String a _ => Some a
  end.

(** A group of digits: one digit or more. *)
Definition digits1 (s : string) : Prop :=
  s <> EmptyString /\ string_forallb isdecimal s = true.

(** Zero or more further groups, each preceded by a dot. *)
Inductive dot_groups : string -> Prop :=
| dot_groups_nil : dot_groups EmptyString
| dot_groups_cons d s :
    digits1 d -> dot_groups s -> dot_groups ("." ++ d ++ s).

(** A numbering: one or more dot-separated groups of digits. *)
Definition numbering (n : string) : Prop :=
  exists d s, n = d ++ s /\ digits1 d /\ dot_groups s.

(** The grammar of a heading line: a numbering, optional white space,
    optional free text, and a colon with nothing after it. *)
Definition heading_grammar (l : string) : Prop :=
  exists num ws txt,
    l = num ++ ws ++ txt ++ ":"
    /\ numbering num
    /\ string_forallb isspace ws = true
    /\ string_forallb not_LF txt = true.

(** The blocks of a document, as the specification names them. *)
Inductive block : Type :=
| TitleBlock (txt : string)
| BlankBlock
| HeadingBlock (level : nat) (txt : string)
| BodyBlock (txt : string)
| OtherBlock.

Definition block_of (p : paragraph) : block :=
  match par_style p, runs p with
  | Title, [r] => TitleBlock (text r)
  | Heading level, [r] => HeadingBlock level (text r)
  | Normal, [] => BlankBlock
  | Normal, [r] => BodyBlock (text r)
  | _, _ => OtherBlock
  end.

Definition blocks (d : document) : list block :=
  map block_of (paragraphs d).

Definition is_heading (b : block) : Prop :=
  exists level txt, b = HeadingBlock level txt.

(** The paragraphs the formatter writes, with their styling. *)
Definition times (sz : Z) : font := Font (Some (Pt sz)) (Some "Times New Roman").

Definition blank_paragraph : paragraph :=
  Paragraph Normal [] None (ParagraphFormat None None).

Definition title_paragraph (txt : string) : paragraph :=
  Paragraph Title [Run txt (times 20)] (Some CENTER)
    (ParagraphFormat None None).

Definition heading_paragraph (level : nat) (txt : string) : paragraph :=
  Paragraph (Heading level)
    [Run txt (times (match level with 1 => 16 | _ => 14 end))] None
    (ParagraphFormat None None).

Definition body_paragraph (txt : string) : paragraph :=
  Paragraph Normal [Run txt (times 12)] (Some JUSTIFY)
    (ParagraphFormat (Some MULTIPLE) (Some (3 # 2))).

(** The numbering and the title the formatter reads off a match. *)
Definition heading_fields (m : match_object) : option (string * string) :=
  match group m 1, group m 3 with
  | Some num, Some g3 => Some (num, upper (strip g3))
  | _, _ => None
  end.

Definition level_of (num : string) : nat :=
  if (count "."%char num =? 0)%nat then 1 else 2.

(** The paragraph one line is rendered as. *)
Definition render_line (line : string) : paragraph :=
  let clean_line := strip line in
  match clean_line with
  | EmptyString => blank_paragraph
  | _ =>
      match header_match clean_line with
      | Some m =>
          match heading_fields m with
          | Some (num, title) =>
              heading_paragraph (level_of num) (num ++ " " ++ title)
          | None => blank_paragraph
          end
      | None => body_paragraph clean_line
      end
  end.

(** The paragraphs of the whole document. *)
Definition render (txt topic : string) : list paragraph :=
  title_paragraph (upper topic) :: blank_paragraph :: blank_paragraph
  :: map render_line (split LF (strip txt)).

Section Refusals.
Context {lib : Library}.

(** The message with which the XML layer refuses a paragraph, if it
    does. *)
Definition paragraph_error (p : paragraph) : option string :=
  match runs p with
  | [] => None
  | r :: _ => xml_error (text r)
  end.

(** The first refusal among the paragraphs, in writing order. *)
Fixpoint first_error (ps : list paragraph) : option string :=
  match ps with
  | [] => None
  | p :: ps' =>
      match paragraph_error p with
      | Some e => Some e
      | None => first_error ps'
      end
  end.

End Refusals.

(** Messages of the two workers. *)
Definition is_generation_error (msg : string) : Prop :=
  exists e, msg = "Report Generation Error: " ++ e
                  ++ ". Please check your API key and input.".

Definition is_formatting_error (msg : string) : Prop :=
  exists e, msg = "Word Conversion Error: " ++ e.

(** The paths of the matcher: [Path r st st'] when [r] can lead the
    matcher from [st] to [st'], whatever the order of the attempts. *)
Definition class_of (r : regex) : option (ascii -> bool) :=
  match r with
  | Chr c => Some (Ascii.eqb c)
  | Digit => Some isdecimal
  | Space => Some isspace
  | AnyChar => Some (fun a => negb (Ascii.eqb a LF))
  | _ => None
  end.

Inductive Path : regex -> mstate -> mstate -> Prop :=
| P_class r p st a s' :
    class_of r = Some p -> rest st = String a s' -> p a = true ->
    Path r st (advance st s')
| P_bol st : pos st = 0 -> Path Bol st st
| P_eol st : rest st = EmptyString -> Path Eol st st
| P_eol_lf st : rest st = String LF EmptyString -> Path Eol st st
| P_seq r1 r2 st st1 st2 :
    Path r1 st st1 -> Path r2 st1 st2 -> Path (Seq r1 r2) st st2
| P_stop g r st : Path (Star g r) st st
| P_iter g r st st1 st2 :
    Path r st st1 -> pos st < pos st1 -> Path (Star g r) st1 st2 ->
    Path (Star g r) st st2
| P_group i r st st' :
    Path r st st' -> Path (Group i r) st (set_cap i (pos st) st').

(** The path the matcher tries first. *)
Inductive First : regex -> mstate -> mstate -> Prop :=
| F_class r p st a s' :
    class_of r = Some p -> rest st = String a s' -> p a = true ->
    First r st (advance st s')
| F_bol st : pos st = 0 -> First Bol st st
| F_eol st : rest st = EmptyString -> First Eol st st
| F_seq r1 r2 st st1 st2 :
    First r1 st st1 -> First r2 st1 st2 -> First (Seq r1 r2) st st2
| F_lazy r st : First (Star false r) st st
| F_stop r st :
    (forall st1, Path r st st1 -> pos st1 <= pos st) ->
    First (Star true r) st st
| F_iter r st st1 st2 :
    First r st st1 -> pos st < pos st1 -> First (Star true r) st1 st2 ->
    First (Star true r) st st2
| F_group i r st st' :
    First r st st' -> First (Group i r) st (set_cap i (pos st) st').

(** What a loop body must satisfy for the loops to be sound and
    complete with respect to the paths of [r]. *)
Definition body_sound (r : regex)
    (body : mstate -> (mstate -> option mstate) -> option mstate) : Prop :=
  forall st k m, body st k = Some m ->
    exists st', Path r st st' /\ k st' = Some m.

Definition body_complete (r : regex)
    (body : mstate -> (mstate -> option mstate) -> option mstate) : Prop :=
  forall st st' k, Path r st st' -> k st' <> None -> body st k <> None.

(** Group 2 of the heading pattern: a dot and one or more digits. *)
Definition dot_group_re : regex := Group 2 (Seq (Chr "."%char) (Plus Digit)).

(** The state after [s] has been consumed, [tl] being left. *)
Definition moved (st : mstate) (s tl : string) : mstate :=
  MState (pos st + String.length s) tl (caps st).

(** The page set-up the formatter leaves: one-inch margins. *)
Definition page_setup : list section :=
  [Section_ (Inches 1) (Inches 1) (Inches 1) (Inches 1)].

(** [p a] fails on the first character of [tl], if there is one. *)
Definition not_first (p : ascii -> bool) (tl : string) : Prop :=
  forall a, first_char tl = Some a -> p a = false.

(** The topic with every space and every slash replaced by an
    underscore. *)
Fixpoint underscored (topic : string) : string :=
  match topic with
  | EmptyString => EmptyString
  | String a t =>
      String (if Ascii.eqb a " "%char || Ascii.eqb a "/"%char
              then "_"%char else a)
             (underscored t)
  end.

(** Characters the XML layer of the document library refuses: the
    control characters other than tab, line feed and carriage return. *)
Definition xml_control (a : ascii) : bool :=
  let n := nat_of_ascii a in
  ((n <? 32) && negb ((n =? 9) || (n =? 10) || (n =? 13)))%nat.

(** A library for the examples: texts with a control character are
    refused, and the payload is the document itself. *)
Definition sample_library : Library :=
  {| payload := document;
     xml_error := fun s =>
       if string_forallb (fun a => negb (xml_control a)) s then None
       else Some "All strings must be XML compatible: Unicode or ASCII, no NULL bytes or control characters";
     save := fun d => Ok d |}.

(** A library whose serialiser always fails. *)
Definition read_only_library : Library :=
  {| payload := document;
     xml_error := fun _ => None;
     save := fun _ => Raise "stream is not writable" |}.

Section TraceVocabulary.
Context {lib : Library}.

Definition is_download (ev : event) : Prop :=
  match ev with St_download_button _ _ _ _ => True | _ => False end.

Definition is_call_format (ev : event) : Prop :=
  match ev with Call_format _ _ => True | _ => False end.

Definition is_payload (ev : event) : Prop :=
  match ev with
  | St_download_button _ (Some _) _ _ => True
  | _ => False
  end.

End TraceVocabulary.

(** The text of scenario A of the specification. *)
Definition scenario_A : string :=
  "1. Introduction:

This is body text.

1.1 Background:
More body text.".

(** How a line and the block written for it correspond. *)
Definition line_block (line : string) (b : block) : Prop :=
  (strip line = EmptyString <-> b = BlankBlock)
  /\ (strip line <> EmptyString ->
      is_heading b \/ b = BodyBlock (strip line))
  /\ (strip line <> EmptyString -> ~ heading_grammar (strip line) ->
      b = BodyBlock (strip line)).

(** [tl] does not start with a dot followed by a digit: no further
    group of a numbering starts there. *)
Definition not_dot_digit (tl : string) : Prop :=
  forall d r, digits1 d -> tl <> "." ++ d ++ r.

(** The lines of a text, joined again by line feeds. *)
Definition join_lines (lines : list string) : string :=
  String.concat (String LF EmptyString) lines.

(** A run as the formatter styles it: Times New Roman, at one of the
    four sizes of the program. *)
Definition styled_run (r : run) : Prop :=
  name (run_font r) = Some "Times New Roman"
  /\ exists sz, size (run_font r) = Some (Pt sz)
                /\ In sz [20; 16; 14; 12]%Z.

(** A block the loop over the lines may write. *)
Definition line_kind (b : block) : Prop :=
  b = BlankBlock
  \/ (exists txt, b = BodyBlock txt)
  \/ (exists txt, b = HeadingBlock 1 txt)
  \/ (exists txt, b = HeadingBlock 2 txt).

Section OutcomeVocabulary.
Context {lib : Library}.

(** The events that tell what a run did: the calls of the workers, the
    download, the errors and the stop. *)
Definition outcome_b (ev : event) : bool :=
  match ev with
  | Call_generate _ | Call_format _ _ | St_download_button _ _ _ _
  | St_error _ | St_stop | Uncaught _ => true
  | _ => false
  end.

Definition outcome (evs : list event) : list event := filter outcome_b evs.

Definition error_b (ev : event) : bool :=
  match ev with St_error _ | Uncaught _ => true | _ => false end.

Definition download_b (ev : event) : bool :=
  match ev with St_download_button _ _ _ _ => true | _ => false end.

End OutcomeVocabulary.

(** A line with a form feed in it, which the XML layer refuses. *)
Definition form_feed_line : string :=
  String "a"%char (String (ascii_of_nat 12) "b").

(** The characters of the alphabet of the model: the code points below
    256 whose upper case is made of code points below 256. *)
Definition in_alphabet (a : ascii) : bool :=
  let n := nat_of_ascii a in negb ((n =? 181) || (n =? 255))%nat.

(** [core] is [s] without the white space around it: [s] is [core]
    between two runs of white space, and [core] neither starts nor ends
    with white space. *)
Definition trimmed_to (s core : string) : Prop :=
  (exists pre post,
     s = pre ++ core ++ post
     /\ string_forallb isspace pre = true
     /\ string_forallb isspace post = true)
  /\ not_first isspace core
  /\ (forall a, last_char core = Some a -> isspace a = false).

(** How a line, its trimmed content and the block written for it
    correspond. *)
Definition trimmed_line_block (line : string) (b : block) : Prop :=
  exists core,
    trimmed_to line core
    /\ core = strip line
    /\ (core = EmptyString <-> b = BlankBlock)
    /\ (core <> EmptyString -> is_heading b \/ b = BodyBlock core)
    /\ (core <> EmptyString -> ~ heading_grammar core -> b = BodyBlock core).

(** A text with blank lines before and after, indented lines and a
    blank line inside. *)
Definition padded_text : string :=
  "
  
  Intro text  

1.1 Scope:
   
".

(** The line "1. Résumé straße :", with the Latin-1 code points 233 for
    the e with acute accent and 223 for the sharp s. *)
Definition numbered_line : string :=
  "1. R" ++ String (ascii_of_nat 233) "sum" ++ String (ascii_of_nat 233)
  (" stra" ++ String (ascii_of_nat 223) "e :").

(* ------------------------------------------------------------------ *)
(** ** Facts on strings *)

Lemma append_nil_r (s : string) : s ++ "" = s.
Proof. induction s; simpl; congruence. Qed.

Lemma append_assoc (a b c : string) : (a ++ b) ++ c = a ++ (b ++ c).
Proof. induction a; simpl; congruence. Qed.

Lemma length_append (a b : string) :
  String.length (a ++ b) = String.length a + String.length b.
Proof. induction a; simpl; congruence. Qed.

Lemma append_inv_head (a b c : string) : a ++ b = a ++ c -> b = c.
Proof. induction a; simpl; intros H; [assumption|]. injection H; auto. Qed.

Lemma substring_0_append (a b : string) :
  substring 0 (String.length a) (a ++ b) = a.
Proof.
  induction a as [|c a IH]; simpl.
  - destruct b; reflexivity.
  - now rewrite IH.
Qed.

Lemma substring_skip (a b : string) (n : nat) :
  substring (String.length a) n (a ++ b) = substring 0 n b.
Proof. induction a; simpl; auto. Qed.

Lemma string_forallb_append (p : ascii -> bool) (a b : string) :
  string_forallb p (a ++ b) = string_forallb p a && string_forallb p b.
Proof.
  induction a as [|c a IH]; simpl; [reflexivity|].
  now rewrite IH, andb_assoc.
Qed.

Lemma last_char_append_cons (a : string) (c : ascii) (b : string) :
  last_char (a ++ String c b) = last_char (String c b).
Proof.
  induction a as [|x a IH]; [reflexivity|].
  change (String x a ++ String c b) with (String x (a ++ String c b)).
  remember (a ++ String c b) as t eqn:Et.
  destruct t as [|y t].
  - destruct a; discriminate.
  - rewrite <- IH. reflexivity.
Qed.

(* ------------------------------------------------------------------ *)
(** ** The matcher and its paths *)

Lemma exec_class_of (r : regex) (p : ascii -> bool) st k :
  class_of r = Some p -> exec r st k = exec_class p st k.
Proof. destruct r; simpl; intros H; inversion H; reflexivity. Qed.

Lemma path_length r st st' :
  Path r st st' ->
  pos st' + String.length (rest st') = pos st + String.length (rest st).
Proof.
  induction 1; try reflexivity; simpl in *.
  - rewrite H0. simpl. lia.
  - lia.
  - lia.
  - assumption.
Qed.

Lemma first_path r st st' : First r st st' -> Path r st st'.
Proof. induction 1; eauto using Path. Qed.

Lemma star_loop_sound r body (Hb : body_sound r body) :
  forall n st k m, star_loop body k n st = Some m ->
    exists st', Path (Star true r) st st' /\ k st' = Some m.
Proof.
  induction n as [|n IH]; simpl; intros st k m H.
  - exists st. split; [constructor|assumption].
  - unfold orelse in H.
    destruct (body st _) as [m'|] eqn:E.
    + inversion H; subst m'. apply Hb in E. destruct E as (st1 & P1 & K1).
      destruct (pos st <? pos st1)%nat eqn:Lt; [|discriminate].
      apply Nat.ltb_lt in Lt. apply IH in K1. destruct K1 as (st2 & P2 & K2).
      exists st2. split; [eapply P_iter; eassumption|assumption].
    + exists st. split; [constructor|assumption].
Qed.

Lemma lazy_loop_sound r body (Hb : body_sound r body) :
  forall n st k m, lazy_loop body k n st = Some m ->
    exists st', Path (Star false r) st st' /\ k st' = Some m.
Proof.
  induction n as [|n IH]; simpl; intros st k m H; unfold orelse in H.
  - destruct (k st) eqn:E; [|discriminate].
    exists st. split; [constructor|congruence].
  - destruct (k st) eqn:E.
    + exists st. split; [constructor|congruence].
    + apply Hb in H. destruct H as (st1 & P1 & K1).
      destruct (pos st <? pos st1)%nat eqn:Lt; [|discriminate].
      apply Nat.ltb_lt in Lt. apply IH in K1. destruct K1 as (st2 & P2 & K2).
      exists st2. split; [eapply P_iter; eassumption|assumption].
Qed.

Lemma exec_class_sound r p st k m :
  class_of r = Some p -> exec_class p st k = Some m ->
  exists st', Path r st st' /\ k st' = Some m.
Proof.
  unfold exec_class. intros Hc H.
  destruct (rest st) as [|a s'] eqn:E; [discriminate|].
  destruct (p a) eqn:Pa; [|discriminate].
  exists (advance st s'). split; [eapply P_class; eassumption|assumption].
Qed.

(** Whatever the matcher returns was reached along a path. *)
Lemma exec_sound r : body_sound r (exec r).
Proof.
  induction r as [c| | | | | |r1 IH1 r2 IH2|g r IH|i r IH];
    intros st k m H.
  1-4: eapply exec_class_sound; [|rewrite <- H; symmetry; apply exec_class_of];
       reflexivity.
  - simpl in H. destruct (pos st =? 0)%nat eqn:E; [|discriminate].
    apply Nat.eqb_eq in E. exists st. split; [constructor; assumption|assumption].
  - simpl in H. destruct (rest st) as [|a [|b s]] eqn:E; try discriminate.
    + exists st. split; [apply P_eol; assumption|assumption].
    + destruct (Ascii.eqb a LF) eqn:Ea; [|discriminate].
      apply Ascii.eqb_eq in Ea. subst a.
      exists st. split; [apply P_eol_lf; assumption|assumption].
  - simpl in H. apply IH1 in H. destruct H as (st1 & P1 & H).
    apply IH2 in H. destruct H as (st2 & P2 & H).
    exists st2. split; [econstructor; eassumption|assumption].
  - simpl in H. destruct g.
    + eapply star_loop_sound; eassumption.
    + eapply lazy_loop_sound; eassumption.
  - simpl in H. apply IH in H. destruct H as (st1 & P1 & H).
    exists (set_cap i (pos st) st1). split; [constructor; assumption|assumption].
Qed.

Lemma orelse_some_l a b : a <> None -> orelse a b <> None.
Proof. destruct a; simpl; congruence. Qed.

Lemma orelse_some_r a b : b <> None -> orelse a b <> None.
Proof. destruct a; simpl; congruence. Qed.

Lemma loop_complete g r body (Hb : body_complete r body) :
  forall st st', Path (Star g r) st st' ->
  forall n k, String.length (rest st) <= n -> k st' <> None ->
    (if g then star_loop else lazy_loop) body k n st <> None.
Proof.
  intros st st' P. remember (Star g r) as R eqn:ER.
  induction P; inversion ER; subst.
  - discriminate.
  - intros n k _ Hk. destruct g, n; simpl; auto using orelse_some_l, orelse_some_r.
  - clear IHP1. specialize (IHP2 eq_refl).
    intros n k Hn Hk.
    pose proof (path_length P1) as L.
    destruct n as [|n]; [lia|].
    assert (Hstep : body st (fun st' =>
              if (pos st <? pos st')%nat
              then (if g then star_loop else lazy_loop) body k n st'
              else None) <> None).
    { eapply Hb; [eassumption|].
      apply Nat.ltb_lt in H. rewrite H.
      apply IHP2; [apply Nat.ltb_lt in H; lia|assumption]. }
    destruct g; simpl.
    + apply orelse_some_l. assumption.
    + destruct (k st); simpl; [discriminate|assumption].
Qed.

(** A path on which the continuation succeeds makes the matcher
    succeed. *)
Lemma exec_complete r : body_complete r (exec r).
Proof.
  induction r as [c| | | | | |r1 IH1 r2 IH2|g r IH|i r IH];
    intros st st' k P Hk.
  1-4: inversion P; subst; simpl in *;
       match goal with H : Some _ = Some _ |- _ => inversion H; subst end;
       unfold exec_class;
       match goal with H : rest _ = _ |- _ => rewrite H end;
       match goal with H : _ = true |- _ => rewrite H end; assumption.
  - inversion P; subst; try discriminate. simpl. rewrite H. assumption.
  - inversion P; subst; try discriminate; simpl; rewrite H; assumption.
  - inversion P; subst; try discriminate. simpl.
    eapply IH1; [eassumption|]. eapply IH2; eassumption.
  - simpl. eapply loop_complete; eauto.
  - inversion P; subst; try discriminate. simpl.
    eapply IH; eassumption.
Qed.

Lemma star_loop_first r
    (Hb : forall st st1 k m,
        First r st st1 -> k st1 = Some m -> exec r st k = Some m) :
  forall st st', First (Star true r) st st' ->
  forall n k m, String.length (rest st) <= n -> k st' = Some m ->
    star_loop (exec r) k n st = Some m.
Proof.
  intros st st' F. remember (Star true r) as R eqn:ER.
  induction F; inversion ER; subst.
  - discriminate.
  - intros n k m _ Hk. destruct n as [|n]; simpl; [assumption|].
    destruct (exec r st _) as [m'|] eqn:E; simpl; [|assumption].
    apply exec_sound in E. destruct E as (st1 & P1 & K1).
    apply H in P1. apply Nat.ltb_ge in P1. rewrite P1 in K1. discriminate.
  - clear IHF1. specialize (IHF2 eq_refl).
    intros n k m Hn Hk.
    pose proof (path_length (first_path F1)) as L.
    destruct n as [|n]; [lia|]. simpl.
    erewrite Hb; [reflexivity|eassumption|].
    pose proof H as Hlt. apply Nat.ltb_lt in Hlt. rewrite Hlt.
    apply IHF2; [lia|assumption].
Qed.

(** The matcher returns what the continuation returns at the end of the
    path it tries first, when the continuation succeeds there. *)
Lemma first_wins r :
  forall st st' k m,
    First r st st' -> k st' = Some m -> exec r st k = Some m.
Proof.
  induction r as [c| | | | | |r1 IH1 r2 IH2|g r IH|i r IH];
    intros st st' k m F Hk.
  1-4: inversion F; subst; simpl in *;
       match goal with H : Some _ = Some _ |- _ => inversion H; subst end;
       unfold exec_class;
       match goal with H : rest _ = _ |- _ => rewrite H end;
       match goal with H : _ = true |- _ => rewrite H end; assumption.
  - inversion F; subst; try discriminate. simpl. rewrite H. assumption.
  - inversion F; subst; try discriminate. simpl. rewrite H. assumption.
  - inversion F; subst; try discriminate. simpl.
    eapply IH1; [eassumption|]. eapply IH2; eassumption.
  - destruct g.
    + simpl. eapply star_loop_first; eauto.
    + inversion F; subst; try discriminate. simpl.
      destruct (String.length (rest st')); simpl; rewrite Hk; reflexivity.
  - inversion F; subst; try discriminate. simpl.
    eapply IH; eassumption.
Qed.

(** *** Reading a path backwards *)

Lemma path_class_inv r p st st' :
  class_of r = Some p -> Path r st st' ->
  exists a s', rest st = String a s' /\ p a = true /\ st' = advance st s'.
Proof.
  intros Hc P. destruct P; simpl in Hc; try discriminate.
  rewrite H in Hc. inversion Hc; subst. eauto.
Qed.

Lemma path_seq_inv r1 r2 st st' :
  Path (Seq r1 r2) st st' -> exists st1, Path r1 st st1 /\ Path r2 st1 st'.
Proof. inversion 1; subst; try discriminate; eauto. Qed.

Lemma path_group_inv i r st st' :
  Path (Group i r) st st' ->
  exists st1, Path r st st1 /\ st' = set_cap i (pos st) st1.
Proof. inversion 1; subst; try discriminate; eauto. Qed.

Lemma path_bol_inv st st' : Path Bol st st' -> st' = st /\ pos st = 0.
Proof. inversion 1; subst; try discriminate; auto. Qed.

Lemma path_eol_inv st st' :
  Path Eol st st' ->
  st' = st /\ (rest st = EmptyString \/ rest st = String LF EmptyString).
Proof. inversion 1; subst; try discriminate; auto. Qed.

Lemma path_star_class_inv g r p :
  class_of r = Some p ->
  forall st st', Path (Star g r) st st' ->
  exists s, rest st = s ++ rest st'
            /\ string_forallb p s = true
            /\ pos st' = pos st + String.length s
            /\ caps st' = caps st.
Proof.
  intros Hc st st' P. remember (Star g r) as R eqn:ER.
  induction P; inversion ER; subst.
  - discriminate.
  - exists EmptyString. simpl. auto.
  - clear IHP1. destruct (IHP2 eq_refl) as (s & E & Fs & Ps & Cs).
    destruct (path_class_inv Hc P1) as (a & s' & Ea & Pa & ->).
    simpl in *. exists (String a s). simpl.
    rewrite Ea, E, Pa, Fs, Ps, Cs. repeat split. lia.
Qed.

Lemma path_plus_digit_inv st st' :
  Path (Plus Digit) st st' ->
  exists d, rest st = d ++ rest st'
            /\ digits1 d
            /\ pos st' = pos st + String.length d
            /\ caps st' = caps st.
Proof.
  intros P. apply path_seq_inv in P. destruct P as (st1 & P1 & P2).
  destruct (path_class_inv (r:=Digit) (p:=isdecimal) eq_refl P1) as (a & s' & Ea & Pa & ->).
  destruct (path_star_class_inv (r:=Digit) (p:=isdecimal) eq_refl P2) as (s & E & Fs & Ps & Cs).
  simpl in *. exists (String a s). simpl.
  rewrite Ea, E, Ps, Cs. repeat split; [discriminate| |lia].
  simpl. now rewrite Pa, Fs.
Qed.

Lemma lookup_cap_set_cap i j start st :
  i <> j ->
  lookup_cap i (caps (set_cap j start st)) = lookup_cap i (caps st).
Proof.
  intros N. simpl. apply Nat.eqb_neq in N. now rewrite N.
Qed.

Lemma path_dot_group_inv st st' :
  Path dot_group_re st st' ->
  exists d, rest st = "." ++ d ++ rest st'
            /\ digits1 d
            /\ pos st' = pos st + S (String.length d)
            /\ (forall i, i <> 2 ->
                  lookup_cap i (caps st') = lookup_cap i (caps st)).
Proof.
  intros P. apply path_group_inv in P. destruct P as (st1 & P & ->).
  apply path_seq_inv in P. destruct P as (st0 & P0 & P1).
  destruct (path_class_inv (r:=Chr "."%char) (p:=Ascii.eqb "."%char) eq_refl P0)
    as (a & s' & Ea & Pa & ->).
  apply Ascii.eqb_eq in Pa. subst a.
  destruct (path_plus_digit_inv P1) as (d & E & Dd & Ps & Cs).
  simpl in *. exists d. rewrite Ea, E. repeat split; try apply Dd; [lia|].
  intros i N. apply Nat.eqb_neq in N. now rewrite N, Cs.
Qed.

Lemma path_dot_groups_inv :
  forall st st', Path (Star true dot_group_re) st st' ->
  exists s, rest st = s ++ rest st'
            /\ dot_groups s
            /\ pos st' = pos st + String.length s
            /\ (forall i, i <> 2 ->
                  lookup_cap i (caps st') = lookup_cap i (caps st)).
Proof.
  intros st st' P. remember (Star true dot_group_re) as R eqn:ER.
  induction P; inversion ER; subst.
  - discriminate.
  - exists EmptyString. simpl. repeat split; auto. constructor.
  - clear IHP1. destruct (IHP2 eq_refl) as (s & E & Gs & Ps & Cs).
    destruct (path_dot_group_inv P1) as (d & Ed & Dd & Pd & Cd).
    exists ("." ++ d ++ s). repeat split.
    + rewrite Ed, E. simpl. now rewrite append_assoc.
    + now constructor.
    + rewrite Ps, Pd. simpl. rewrite length_append. lia.
    + intros i N. now rewrite Cs, Cd.
Qed.

(** *** The paths of the heading pattern *)

Lemma header_re_eq :
  header_re =
  Seq Bol
   (Seq (Group 1 (Seq (Plus Digit) (Star true dot_group_re)))
    (Seq (Star true Space)
     (Seq (Group 3 (Star false AnyChar))
      (Seq (Chr ":"%char) Eol)))).
Proof. reflexivity. Qed.

Lemma path_header_inv l st' :
  Path header_re (MState 0 l []) st' ->
  exists num ws txt tl,
    l = num ++ ws ++ txt ++ ":" ++ tl
    /\ (tl = EmptyString \/ tl = String LF EmptyString)
    /\ numbering num
    /\ string_forallb isspace ws = true
    /\ string_forallb not_LF txt = true
    /\ lookup_cap 1 (caps st') = Some (0, String.length num)
    /\ lookup_cap 3 (caps st')
       = Some (String.length num + String.length ws,
               String.length num + String.length ws + String.length txt).
Proof.
  rewrite header_re_eq. intros P.
  apply path_seq_inv in P. destruct P as (s0 & P0 & P).
  apply path_bol_inv in P0. destruct P0 as (-> & _).
  apply path_seq_inv in P. destruct P as (s1 & P1 & P).
  apply path_group_inv in P1. destruct P1 as (s1' & P1 & ->).
  apply path_seq_inv in P1. destruct P1 as (sd & Pd & Pg).
  destruct (path_plus_digit_inv Pd) as (d & Ed & Dd & Posd & Cd).
  destruct (path_dot_groups_inv Pg) as (g & Eg & Gg & Posg & Cg).
  apply path_seq_inv in P. destruct P as (s2 & P2 & P).
  destruct (path_star_class_inv (r:=Space) (p:=isspace) eq_refl P2)
    as (ws & Ew & Fw & Posw & Cw).
  apply path_seq_inv in P. destruct P as (s3 & P3 & P).
  apply path_group_inv in P3. destruct P3 as (s3' & P3 & ->).
  destruct (path_star_class_inv (r:=AnyChar) (p:=not_LF) eq_refl P3)
    as (txt & Et & Ft & Post & Ct).
  apply path_seq_inv in P. destruct P as (s4 & P4 & P5).
  destruct (path_class_inv (r:=Chr ":"%char) (p:=Ascii.eqb ":"%char) eq_refl P4)
    as (a & tl & Ea & Pa & ->).
  apply Ascii.eqb_eq in Pa. subst a.
  apply path_eol_inv in P5. destruct P5 as (-> & Htl).
  simpl in *.
  exists (d ++ g), ws, txt, tl. repeat split.
  - rewrite Ed, Eg, Ew, Et, Ea. now rewrite !append_assoc.
  - assumption.
  - exists d, g. auto.
  - assumption.
  - assumption.
  - rewrite Ct, Cw. simpl. rewrite Posg, Posd, length_append. reflexivity.
  - rewrite Post, Posw, Posg, Posd, length_append. simpl. reflexivity.
Qed.

Lemma header_match_inv l m :
  header_match l = Some m ->
  exists num ws txt tl,
    l = num ++ ws ++ txt ++ ":" ++ tl
    /\ (tl = EmptyString \/ tl = String LF EmptyString)
    /\ numbering num
    /\ string_forallb isspace ws = true
    /\ string_forallb not_LF txt = true
    /\ group m 1 = Some num
    /\ group m 3 = Some txt.
Proof.
  unfold header_match, re_match. intros H.
  destruct (exec header_re _ _) as [st'|] eqn:E; [|discriminate].
  inversion H; subst m; clear H.
  apply exec_sound in E. destruct E as (st1 & P & K). inversion K; subst st1.
  destruct (path_header_inv P) as (num & ws & txt & tl & El & Htl & Hn & Hw & Ht & C1 & C3).
  exists num, ws, txt, tl. repeat split; try assumption.
  - unfold group. simpl. rewrite C1, Nat.sub_0_r, El.
    now rewrite substring_0_append.
  - unfold group. simpl. rewrite C3.
    replace (String.length num + String.length ws + String.length txt
             - (String.length num + String.length ws))
      with (String.length txt) by lia.
    rewrite El, <- (append_assoc num ws), <- length_append, substring_skip.
    now rewrite substring_0_append.
Qed.

(** *** Building paths *)

Lemma moved_nil st : moved st EmptyString (rest st) = st.
Proof. destruct st; unfold moved; simpl. now rewrite Nat.add_0_r. Qed.

Lemma moved_nil' st tl : rest st = tl -> moved st EmptyString tl = st.
Proof. intros <-. apply moved_nil. Qed.

Lemma moved_cons st a s tl :
  moved st (String a s) tl = moved (advance st (s ++ tl)) s tl.
Proof. unfold moved; simpl. f_equal. lia. Qed.

Lemma path_star_class_build g r p (Hc : class_of r = Some p) :
  forall s st tl,
    string_forallb p s = true -> rest st = s ++ tl ->
    Path (Star g r) st (moved st s tl).
Proof.
  induction s as [|a s IH]; intros st tl Hs E.
  - simpl in E. rewrite <- E, moved_nil. constructor.
  - simpl in Hs. apply andb_prop in Hs. destruct Hs as (Pa & Hs).
    rewrite moved_cons. eapply P_iter.
    + eapply P_class; eassumption.
    + simpl. lia.
    + apply IH; [assumption|reflexivity].
Qed.

Lemma path_plus_digit_build d st tl :
  digits1 d -> rest st = d ++ tl -> Path (Plus Digit) st (moved st d tl).
Proof.
  intros (Hne & Hd) E. destruct d as [|a d]; [congruence|].
  simpl in Hd. apply andb_prop in Hd. destruct Hd as (Pa & Hd).
  rewrite moved_cons. eapply P_seq.
  - eapply P_class; [reflexivity|eassumption|assumption].
  - apply path_star_class_build with (p := isdecimal); auto.
Qed.

Lemma path_dot_groups_build s :
  dot_groups s ->
  forall st tl, rest st = s ++ tl ->
  exists st', Path (Star true dot_group_re) st st'
              /\ rest st' = tl
              /\ pos st' = pos st + String.length s.
Proof.
  induction 1 as [|d s Dd Gs IH]; intros st tl E.
  - exists st. simpl in *. repeat split; [constructor|assumption|lia].
  - set (st0 := advance st (d ++ s ++ tl)).
    assert (E0 : rest st0 = d ++ (s ++ tl)) by reflexivity.
    pose proof (path_plus_digit_build st0 (s ++ tl) Dd E0) as Pd.
    destruct (IH (set_cap 2 (pos st) (moved st0 d (s ++ tl))) tl eq_refl)
      as (st' & P' & R' & Pos').
    exists st'. repeat split; [|assumption|].
    + eapply P_iter; [| |eassumption].
      * unfold dot_group_re. apply P_group. eapply P_seq; [|eassumption].
        eapply P_class; [reflexivity| |apply Ascii.eqb_refl].
        rewrite E. simpl. now rewrite append_assoc.
      * simpl. lia.
    + rewrite Pos'. simpl. rewrite length_append. lia.
Qed.

Lemma path_header_build num ws txt :
  numbering num ->
  string_forallb isspace ws = true ->
  string_forallb not_LF txt = true ->
  exists st', Path header_re (MState 0 (num ++ ws ++ txt ++ ":") []) st'.
Proof.
  intros (d & g & -> & Dd & Gg) Hw Ht.
  rewrite header_re_eq.
  set (l := (d ++ g) ++ ws ++ txt ++ ":").
  set (st0 := MState 0 l []).
  assert (E0 : rest st0 = d ++ (g ++ ws ++ txt ++ ":")).
  { unfold st0, l. simpl. now rewrite append_assoc. }
  pose proof (path_plus_digit_build st0 _ Dd E0) as Pd.
  destruct (path_dot_groups_build Gg (moved st0 d (g ++ ws ++ txt ++ ":"))
              (ws ++ txt ++ ":") eq_refl) as (s1 & Pg & R1 & _).
  set (s1' := set_cap 1 (pos st0) s1).
  assert (E1 : rest s1' = ws ++ (txt ++ ":")) by exact R1.
  pose proof (@path_star_class_build true Space isspace eq_refl
                ws s1' (txt ++ ":") Hw E1) as Pw.
  set (s2 := moved s1' ws (txt ++ ":")).
  assert (E2 : rest s2 = txt ++ ":") by reflexivity.
  pose proof (@path_star_class_build false AnyChar not_LF eq_refl
                txt s2 ":" Ht E2) as Pt.
  set (s3 := set_cap 3 (pos s2) (moved s2 txt ":")).
  exists (advance s3 EmptyString).
  eapply P_seq; [apply P_bol; reflexivity|].
  eapply P_seq; [apply P_group; eapply P_seq; eassumption|].
  eapply P_seq; [exact Pw|].
  eapply P_seq; [apply P_group; exact Pt|].
  eapply P_seq.
  - eapply P_class; [reflexivity|reflexivity|apply Ascii.eqb_refl].
  - apply P_eol. reflexivity.
Qed.

(** The heading pattern matches exactly the lines of the grammar;
    a line that ends in a line feed is not the result of a trim. *)
Lemma header_match_complete l :
  heading_grammar l -> header_match l <> None.
Proof.
  intros (num & ws & txt & -> & Hn & Hw & Ht).
  destruct (@path_header_build num ws txt Hn Hw Ht) as (st' & P).
  unfold header_match, re_match.
  destruct (exec header_re _ _) eqn:E; [discriminate|].
  exfalso. revert E. eapply exec_complete; [eassumption|discriminate].
Qed.

(* ------------------------------------------------------------------ *)
(** ** Facts on [strip] and [split] *)

Lemma rstrip_last s a : last_char (rstrip s) = Some a -> isspace a = false.
Proof.
  induction s as [|c s IH]; simpl; [discriminate|].
  destruct (rstrip s) as [|b r] eqn:E.
  - destruct (isspace c) eqn:Ec; simpl; [discriminate|].
    intros H; inversion H; subst; assumption.
  - intros H. apply IH. exact H.
Qed.

Lemma lstrip_suffix s :
  exists pre, s = pre ++ lstrip s /\ string_forallb isspace pre = true.
Proof.
  induction s as [|c s (pre & E & Hp)]; simpl.
  - exists EmptyString. auto.
  - destruct (isspace c) eqn:Ec.
    + exists (String c pre). simpl. rewrite Ec, Hp. split; [congruence|reflexivity].
    + exists EmptyString. auto.
Qed.

Lemma lstrip_first s a : first_char (lstrip s) = Some a -> isspace a = false.
Proof.
  induction s as [|c s IH]; simpl; [discriminate|].
  destruct (isspace c) eqn:Ec; [assumption|].
  simpl. intros H; inversion H; subst; assumption.
Qed.

Lemma lstrip_last s a : last_char (lstrip s) = Some a -> last_char s = Some a.
Proof.
  destruct (lstrip_suffix s) as (pre & E & _).
  destruct (lstrip s) as [|c t] eqn:El; [discriminate|].
  intros H. rewrite E, last_char_append_cons. exact H.
Qed.

Lemma strip_last s a : last_char (strip s) = Some a -> isspace a = false.
Proof. intros H. apply lstrip_last in H. eapply rstrip_last; eassumption. Qed.

Lemma strip_first s a : first_char (strip s) = Some a -> isspace a = false.
Proof. apply lstrip_first. Qed.

Lemma lstrip_spaces s : string_forallb isspace s = true -> lstrip s = EmptyString.
Proof.
  induction s as [|c s IH]; simpl; [reflexivity|].
  intros H. apply andb_prop in H. destruct H as (Hc & Hs). now rewrite Hc, IH.
Qed.

Lemma rstrip_spaces s : string_forallb isspace s = true -> rstrip s = EmptyString.
Proof.
  induction s as [|c s IH]; simpl; [reflexivity|].
  intros H. apply andb_prop in H. destruct H as (Hc & Hs). now rewrite IH, Hc.
Qed.

Lemma rstrip_empty_spaces s :
  rstrip s = EmptyString -> string_forallb isspace s = true.
Proof.
  induction s as [|c s IH]; simpl; [reflexivity|].
  destruct (rstrip s) eqn:E; [|discriminate].
  destruct (isspace c); [|discriminate]. intros _. now rewrite IH.
Qed.

Lemma lstrip_empty_spaces s :
  lstrip s = EmptyString -> string_forallb isspace s = true.
Proof.
  induction s as [|c s IH]; simpl; [reflexivity|].
  destruct (isspace c); [assumption|discriminate].
Qed.

Lemma strip_spaces s : string_forallb isspace s = true -> strip s = EmptyString.
Proof. intros H. unfold strip. now rewrite (rstrip_spaces _ H). Qed.

Lemma rstrip_prefix s :
  exists post, s = rstrip s ++ post /\ string_forallb isspace post = true.
Proof.
  induction s as [|c s (post & E & Hp)]; simpl.
  - exists EmptyString. auto.
  - destruct (rstrip s) as [|b r] eqn:Er.
    + simpl in E. subst post.
      destruct (isspace c) eqn:Ec.
      * exists (String c s). simpl. rewrite Ec, Hp. auto.
      * exists s. auto.
    + exists post. split; [|assumption]. simpl. simpl in E. congruence.
Qed.

(** A trimmed string is empty exactly when the string is white space. *)
Lemma strip_empty_iff s :
  strip s = EmptyString <-> string_forallb isspace s = true.
Proof.
  split; [|apply strip_spaces].
  unfold strip. intros H. apply lstrip_empty_spaces in H.
  destruct (rstrip_prefix s) as (post & E & Hp).
  rewrite E, string_forallb_append, H, Hp. reflexivity.
Qed.

Lemma rstrip_append a b :
  rstrip (a ++ b)
  = match rstrip b with
    | EmptyString => rstrip a
    | r => a ++ r
    end.
Proof.
  induction a as [|c a IH]; simpl.
  - destruct (rstrip b); reflexivity.
  - rewrite IH. destruct (rstrip b) as [|x r]; [reflexivity|].
    destruct a; reflexivity.
Qed.

Lemma lstrip_append_spaces pre s :
  string_forallb isspace pre = true -> lstrip (pre ++ s) = lstrip s.
Proof.
  induction pre as [|c pre IH]; simpl; [reflexivity|].
  intros H. apply andb_prop in H. destruct H as (Hc & Hp). now rewrite Hc, IH.
Qed.

(** White space around a text does not survive the trim. *)
Lemma strip_surrounded pre s post :
  string_forallb isspace pre = true ->
  string_forallb isspace post = true ->
  strip (pre ++ s ++ post) = strip s.
Proof.
  intros Hpre Hpost. unfold strip.
  assert (E : rstrip (s ++ post) = rstrip s).
  { rewrite rstrip_append, (rstrip_spaces _ Hpost). reflexivity. }
  rewrite rstrip_append, E.
  destruct (rstrip s) as [|x r] eqn:Er.
  - rewrite (rstrip_spaces _ Hpre). reflexivity.
  - apply lstrip_append_spaces. assumption.
Qed.

Lemma strip_idempotent s : strip (strip s) = strip s.
Proof.
  unfold strip.
  destruct (lstrip (rstrip s)) as [|c t] eqn:E; [reflexivity|].
  assert (Hl : forall a, last_char (String c t) = Some a -> isspace a = false).
  { intros a H. rewrite <- E in H. apply lstrip_last in H.
    eapply rstrip_last; eassumption. }
  assert (Hf : isspace c = false).
  { apply (lstrip_first (rstrip s)). rewrite E. reflexivity. }
  assert (Er : rstrip (String c t) = String c t).
  { clear E Hf. revert c Hl. induction t as [|b t IH]; intros c Hl.
    - simpl. rewrite (Hl c eq_refl). reflexivity.
    - change (rstrip (String c (String b t)))
        with (match rstrip (String b t) with
              | EmptyString =>
                  if isspace c then EmptyString else String c EmptyString
              | r => String c r
              end).
      rewrite IH; [reflexivity|]. intros a H. apply Hl. exact H. }
  rewrite Er. simpl. now rewrite Hf.
Qed.

Lemma split_not_nil sep s : split sep s <> [].
Proof.
  induction s as [|c s IH]; simpl; [discriminate|].
  destruct (Ascii.eqb c sep); [discriminate|].
  destruct (split sep s); [congruence|discriminate].
Qed.

(** The lines of a text are one more than its separators. *)
Lemma split_length sep s : List.length (split sep s) = S (count sep s).
Proof.
  induction s as [|c s IH]; simpl; [reflexivity|].
  destruct (Ascii.eqb c sep); simpl; [now rewrite IH|].
  destruct (split sep s) eqn:E; simpl in *; [discriminate|assumption].
Qed.

Lemma split_no_sep sep s :
  Forall (fun l => count sep l = 0) (split sep s).
Proof.
  induction s as [|c s IH]; simpl.
  - repeat constructor.
  - destruct (Ascii.eqb c sep) eqn:Ec.
    + constructor; [reflexivity|assumption].
    + pose proof (split_not_nil sep s) as N.
      destruct (split sep s) as [|h t]; [congruence|].
      inversion IH as [|? ? Hh Ht]; subst.
      constructor; [|assumption]. simpl. now rewrite Ec, Hh.
Qed.

(* ------------------------------------------------------------------ *)
(** ** What the formatter writes *)

Lemma update_last {A} (f : A -> result A) (l : list A) (x : A) :
  update (List.length l) f (l ++ [x])%list
  = match f x with
    | Ok y => Ok (l ++ [y])%list
    | Raise e => Raise e
    end.
Proof.
  induction l as [|a l IH]; simpl.
  - destruct (f x); reflexivity.
  - rewrite IH. destruct (f x); reflexivity.
Qed.

Lemma modify_paragraph_last secs ps p f :
  modify_paragraph (List.length ps) f (Document_ secs (ps ++ [p])%list)
  = match f p with
    | Ok p' => Ok (tt, Document_ secs (ps ++ [p'])%list)
    | Raise e => Raise e
    end.
Proof.
  unfold modify_paragraph. simpl. rewrite update_last.
  destruct (f p); reflexivity.
Qed.

Lemma numbering_cons num :
  numbering num -> exists a t, num = String a t /\ isdecimal a = true.
Proof.
  intros (d & s & -> & (Hne & Hd) & _).
  destruct d as [|a d]; [congruence|].
  simpl in Hd. apply andb_prop in Hd. destruct Hd as (Ha & _).
  exists a, (d ++ s). auto.
Qed.

Section FormatterFacts.
Context {lib : Library}.

Lemma add_paragraph_styled_run txt st d :
  add_paragraph_styled txt st d
  = match paragraph_error (Paragraph st
              (if truthy txt then [Run txt (Font None None)] else [])
              None (ParagraphFormat None None)) with
    | None =>
        Ok (List.length (paragraphs d),
            Document_ (sections d)
              (paragraphs d
               ++ [Paragraph st
                     (if truthy txt then [Run txt (Font None None)] else [])
                     None (ParagraphFormat None None)])%list)
    | Some e => Raise e
    end.
Proof.
  unfold add_paragraph_styled, paragraph_error. simpl.
  destruct (truthy txt); simpl; [|reflexivity].
  destruct (xml_error txt); reflexivity.
Qed.

Lemma add_heading_run txt a t level d :
  txt = String a t -> (level = 1 \/ level = 2) ->
  bind (add_heading txt level) (fun heading =>
    bind (modify_run_font heading 0
            (set_font_size (Pt (match level with 1 => 16 | _ => 14 end))))
      (fun _ => modify_run_font heading 0 (set_font_name "Times New Roman")))
    d
  = match xml_error txt with
    | None =>
        Ok (tt, Document_ (sections d)
                  (paragraphs d ++ [heading_paragraph level txt])%list)
    | Some e => Raise e
    end.
Proof.
  intros -> Hl. unfold bind, add_heading.
  assert (E : (9 <? level)%nat = false) by (apply Nat.ltb_ge; lia).
  rewrite E, add_paragraph_styled_run. unfold paragraph_error. simpl.
  destruct (xml_error (String a t)); [reflexivity|].
  unfold modify_run_font. rewrite modify_paragraph_last. simpl.
  rewrite modify_paragraph_last. simpl.
  destruct Hl; subst level; reflexivity.
Qed.

Lemma add_body_run txt a t d :
  txt = String a t ->
  bind (add_paragraph txt) (fun paragraph =>
    bind (set_alignment paragraph JUSTIFY) (fun _ =>
    bind (modify_run_font paragraph 0 (set_font_name "Times New Roman")) (fun _ =>
    bind (modify_run_font paragraph 0 (set_font_size (Pt 12))) (fun _ =>
    bind (modify_paragraph_format paragraph (set_line_spacing_rule MULTIPLE))
      (fun _ =>
         modify_paragraph_format paragraph (set_line_spacing (3 # 2)))))))
    d
  = match xml_error txt with
    | None =>
        Ok (tt, Document_ (sections d)
                  (paragraphs d ++ [body_paragraph txt])%list)
    | Some e => Raise e
    end.
Proof.
  intros ->. unfold bind, add_paragraph.
  rewrite add_paragraph_styled_run. unfold paragraph_error. simpl.
  destruct (xml_error (String a t)); [reflexivity|].
  unfold set_alignment, modify_run_font, modify_paragraph_format.
  repeat (rewrite modify_paragraph_last; simpl).
  reflexivity.
Qed.

(** One line: the paragraph of [render_line] is appended, unless the
    XML layer refuses its text. *)
Lemma format_line_run line d :
  format_line line d
  = match paragraph_error (render_line line) with
    | None =>
        Ok (tt, Document_ (sections d)
                  (paragraphs d ++ [render_line line])%list)
    | Some e => Raise e
    end.
Proof.
  unfold format_line, render_line.
  destruct (strip line) as [|c t] eqn:Es.
  - reflexivity.
  - cbv beta iota zeta delta [truthy negb].
    destruct (header_match (String c t)) as [m|] eqn:Em.
    + destruct (header_match_inv _ Em)
        as (num & ws & txt & tl & El & Htl & Hn & Hw & Ht & G1 & G3).
      destruct (numbering_cons Hn) as (a & n' & En & _).
      unfold heading_fields. rewrite G1, G3.
      change (bind (lift (getattr (Some txt) "strip")) ?f)
        with (fun d0 : document => f txt d0).
      cbv beta.
      change (bind (lift (getattr (Some num) "count")) ?f)
        with (fun d0 : document => f num d0).
      cbv beta. unfold level_of.
      destruct (count "."%char num =? 0)%nat.
      * rewrite (@add_heading_run (num ++ " " ++ upper (strip txt)) a
                   (n' ++ " " ++ upper (strip txt)) 1 d);
          [reflexivity|now rewrite En|auto].
      * rewrite (@add_heading_run (num ++ " " ++ upper (strip txt)) a
                   (n' ++ " " ++ upper (strip txt)) 2 d);
          [reflexivity|now rewrite En|auto].
    + rewrite (@add_body_run (String c t) c t d eq_refl). reflexivity.
Qed.

End FormatterFacts.

Lemma upper_cons c t : exists a u, upper (String c t) = String a u.
Proof.
  simpl. unfold upper_char.
  destruct (_ || _ || _)%bool; [|destruct (_ =? 223)%nat]; simpl; eauto.
Qed.

Lemma bind_eq {A B} (m : M A) (f : A -> M B) (d : document) :
  bind m f d
  = match m d with
    | Ok (a, d') => f a d'
    | Raise e => Raise e
    end.
Proof. reflexivity. Qed.

Lemma bind_ok {A B} (m : M A) (f : A -> M B) (d d' : document) (a : A) :
  m d = Ok (a, d') -> bind m f d = f a d'.
Proof. intros H. unfold bind. now rewrite H. Qed.

Section DocumentFacts.
Context {lib : Library}.

Lemma for_each_run lines :
  forall d,
    for_each lines format_line d
    = match first_error (map render_line lines) with
      | None =>
          Ok (tt, Document_ (sections d)
                    (paragraphs d ++ map render_line lines)%list)
      | Some e => Raise e
      end.
Proof.
  induction lines as [|line lines IH]; intros d; simpl.
  - destruct d. unfold ret. simpl. now rewrite app_nil_r.
  - unfold bind. rewrite format_line_run.
    destruct (paragraph_error (render_line line)); [reflexivity|].
    rewrite IH. simpl.
    destruct (first_error (map render_line lines)); [reflexivity|].
    now rewrite <- app_assoc.
Qed.

(** The whole document: the paragraphs of [render], unless the topic is
    empty (the title then has no run to style) or the XML layer refuses
    a text. *)
Lemma built_document_run txt topic :
  built_document (Some txt) topic
  = match topic with
    | EmptyString => Raise IndexError
    | _ =>
        match first_error (render txt topic) with
        | None => Ok (Document_ page_setup (render txt topic))
        | Some e => Raise e
        end
    end.
Proof.
  unfold built_document, format_document.
  destruct topic as [|c t]; [reflexivity|].
  unfold render. destruct (upper_cons c t) as (a & u & ->).
  do 4 (erewrite bind_ok by reflexivity).
  rewrite bind_eq.
  change (add_heading (String a u) 0)
    with (add_paragraph_styled (String a u) Title).
  rewrite add_paragraph_styled_run.
  simpl first_error.
  unfold paragraph_error at 1 2. simpl runs. simpl truthy. cbv iota.
  simpl text.
  destruct (xml_error (String a u)); [reflexivity|].
  do 6 (erewrite bind_ok by reflexivity).
  rewrite for_each_run.
  destruct (first_error (map render_line (split LF (strip txt))));
    reflexivity.
Qed.

End DocumentFacts.

(* ------------------------------------------------------------------ *)
(** ** The path tried first on a bare numbering *)

Lemma first_star_class_build r p (Hc : class_of r = Some p) :
  forall s st tl,
    string_forallb p s = true -> rest st = s ++ tl -> not_first p tl ->
    First (Star true r) st (moved st s tl).
Proof.
  induction s as [|a s IH]; intros st tl Hs E Hn.
  - simpl in E. rewrite <- E, moved_nil. apply F_stop.
    intros st1 P. destruct (path_class_inv Hc P) as (a & s' & Ea & Pa & _).
    rewrite E in Ea. rewrite (Hn a) in Pa; [discriminate|].
    rewrite Ea. reflexivity.
  - simpl in Hs. apply andb_prop in Hs. destruct Hs as (Pa & Hs).
    rewrite moved_cons. eapply F_iter.
    + eapply F_class; eassumption.
    + simpl. lia.
    + apply IH; [assumption|reflexivity|assumption].
Qed.

Lemma first_plus_digit_build d st tl :
  digits1 d -> rest st = d ++ tl -> not_first isdecimal tl ->
  First (Plus Digit) st (moved st d tl).
Proof.
  intros (Hne & Hd) E Hn. destruct d as [|a d]; [congruence|].
  simpl in Hd. apply andb_prop in Hd. destruct Hd as (Pa & Hd).
  rewrite moved_cons. eapply F_seq.
  - eapply F_class; [reflexivity|eassumption|assumption].
  - apply first_star_class_build with (p := isdecimal); auto.
Qed.

Lemma dot_groups_not_digit s tl :
  dot_groups s -> not_first isdecimal tl -> not_first isdecimal (s ++ tl).
Proof.
  intros [|d s' Dd Gs] Hn; [exact Hn|].
  intros a H. simpl in H. inversion H; subst. reflexivity.
Qed.

Lemma first_dot_groups_build s :
  dot_groups s ->
  forall st tl,
    rest st = s ++ tl ->
    not_first isdecimal tl -> not_first (Ascii.eqb "."%char) tl ->
    exists st', First (Star true dot_group_re) st st'
                /\ rest st' = tl
                /\ pos st' = pos st + String.length s
                /\ (forall i, i <> 2 ->
                      lookup_cap i (caps st') = lookup_cap i (caps st)).
Proof.
  induction 1 as [|d s Dd Gs IH]; intros st tl E Hnd Hn.
  - exists st. simpl in *. repeat split; [|assumption|lia].
    apply F_stop. intros st1 P.
    destruct (path_dot_group_inv P) as (d & Ed & _).
    rewrite E in Ed. specialize (Hn "."%char). rewrite Ed in Hn.
    discriminate Hn. reflexivity.
  - set (st0 := advance st (d ++ s ++ tl)).
    assert (E0 : rest st0 = d ++ (s ++ tl)) by reflexivity.
    pose proof (@first_plus_digit_build d st0 (s ++ tl) Dd E0
                  (dot_groups_not_digit Gs Hnd)) as Fd.
    destruct (IH (set_cap 2 (pos st) (moved st0 d (s ++ tl))) tl eq_refl Hnd Hn)
      as (st' & F' & R' & Pos' & C').
    exists st'. repeat split; [|assumption| |].
    + eapply F_iter; [| |eassumption].
      * unfold dot_group_re. apply F_group. eapply F_seq; [|eassumption].
        eapply F_class; [reflexivity| |apply Ascii.eqb_refl].
        rewrite E. simpl. now rewrite append_assoc.
      * simpl. lia.
    + rewrite Pos'. simpl. rewrite length_append. lia.
    + intros i N. rewrite (C' i N), (lookup_cap_set_cap _ _ N). reflexivity.
Qed.

Lemma substring_zero_length n s : substring n 0 s = EmptyString.
Proof.
  revert s. induction n as [|n IH]; intros [|c s]; simpl; auto.
Qed.

(** On a numbering followed by a colon the first path succeeds: group 1
    is the whole numbering and group 3 is empty. *)
Lemma header_match_bare n :
  numbering n ->
  exists m, header_match (n ++ ":") = Some m
            /\ group m 1 = Some n
            /\ group m 3 = Some EmptyString.
Proof.
  intros (d & g & -> & Dd & Gg).
  set (l := (d ++ g) ++ ":").
  set (st0 := MState 0 l []).
  assert (Hnd : not_first isdecimal ":")
    by (intros a H; inversion H; reflexivity).
  assert (Hn : not_first (Ascii.eqb "."%char) ":")
    by (intros a H; inversion H; reflexivity).
  assert (Hs : not_first isspace ":")
    by (intros a H; inversion H; reflexivity).
  assert (E0 : rest st0 = d ++ (g ++ ":")).
  { unfold st0, l. simpl. now rewrite append_assoc. }
  pose proof (@first_plus_digit_build d st0 (g ++ ":") Dd E0
                (dot_groups_not_digit Gg Hnd)) as Fd.
  destruct (@first_dot_groups_build g Gg (moved st0 d (g ++ ":")) ":" eq_refl Hnd Hn)
    as (s1 & Fg & R1 & P1 & C1).
  set (s1' := set_cap 1 (pos st0) s1).
  assert (E1 : rest s1' = "" ++ ":") by exact R1.
  pose proof (@first_star_class_build Space isspace eq_refl "" s1' ":"
                eq_refl E1 Hs) as Fw.
  rewrite moved_nil' in Fw by exact R1.
  set (s3 := set_cap 3 (pos s1') s1').
  set (fin := advance s3 EmptyString).
  assert (F : First header_re st0 fin).
  { rewrite header_re_eq.
    eapply F_seq; [apply F_bol; reflexivity|].
    eapply F_seq; [apply F_group; eapply F_seq; eassumption|].
    eapply F_seq; [exact Fw|].
    eapply F_seq; [apply F_group; apply F_lazy|].
    eapply F_seq.
    - eapply F_class; [reflexivity|exact R1|apply Ascii.eqb_refl].
    - apply F_eol. reflexivity. }
  exists (MatchObject l fin). split; [|split].
  - unfold header_match, re_match. fold l. fold st0.
    rewrite (@first_wins header_re st0 fin (fun st => Some st) fin F eq_refl).
    reflexivity.
  - unfold group. simpl. rewrite P1. simpl.
    rewrite <- length_append, Nat.sub_0_r. unfold l.
    now rewrite substring_0_append.
  - unfold group. simpl. rewrite Nat.sub_diag.
    now rewrite substring_zero_length.
Qed.

(* ------------------------------------------------------------------ *)
(** ** Heading lines *)

Lemma digit_not_space a : isdecimal a = true -> isspace a = false.
Proof.
  destruct a as [[] [] [] [] [] [] [] []]; vm_compute; congruence.
Qed.

Lemma rstrip_fixed s :
  (forall a, last_char s = Some a -> isspace a = false) -> rstrip s = s.
Proof.
  induction s as [|c s IH]; intros Hl; [reflexivity|].
  destruct s as [|b s].
  - simpl. now rewrite (Hl c eq_refl).
  - change (rstrip (String c (String b s)))
      with (match rstrip (String b s) with
            | EmptyString =>
                if isspace c then EmptyString else String c EmptyString
            | r => String c r
            end).
    rewrite IH; [reflexivity|]. intros a H. apply Hl. exact H.
Qed.

(** A string that neither starts nor ends with white space is its own
    trim. *)
Lemma strip_fixed s :
  (forall a, first_char s = Some a -> isspace a = false) ->
  (forall a, last_char s = Some a -> isspace a = false) ->
  strip s = s.
Proof.
  intros Hf Hl. unfold strip. rewrite (rstrip_fixed _ Hl).
  destruct s as [|c s]; [reflexivity|].
  simpl. now rewrite (Hf c eq_refl).
Qed.

Lemma grammar_last l : heading_grammar l -> last_char l = Some ":"%char.
Proof.
  intros (num & ws & txt & -> & _).
  rewrite <- !append_assoc. apply last_char_append_cons.
Qed.

(** On a line that does not end with white space, the heading pattern
    matches exactly when the line is in the grammar. *)
Lemma header_match_trimmed l :
  (forall a, last_char l = Some a -> isspace a = false) ->
  header_match l <> None <-> heading_grammar l.
Proof.
  intros Hl. split; [|apply header_match_complete].
  destruct (header_match l) as [m|] eqn:E; [intros _|congruence].
  destruct (header_match_inv _ E)
    as (num & ws & txt & tl & El & Htl & Hn & Hw & Ht & _).
  destruct Htl as [-> | ->].
  - exists num, ws, txt. auto.
  - exfalso. specialize (Hl LF).
    rewrite El, <- !append_assoc, last_char_append_cons in Hl.
    discriminate Hl. reflexivity.
Qed.

Lemma header_match_strip line :
  header_match (strip line) <> None <-> heading_grammar (strip line).
Proof. apply header_match_trimmed. apply strip_last. Qed.

Lemma numbering_strip_fixed n : numbering n -> strip (n ++ ":") = n ++ ":".
Proof.
  intros Hn. destruct (numbering_cons Hn) as (a & t & -> & Ha).
  apply strip_fixed.
  - intros b H. inversion H; subst. now apply digit_not_space.
  - intros b H.
    rewrite (last_char_append_cons (String a t) ":"%char "") in H.
    inversion H; subst. reflexivity.
Qed.

(** The three ways a line is rendered. *)
Lemma render_line_cases line :
  (strip line = EmptyString /\ render_line line = blank_paragraph)
  \/ (exists m num txt,
        strip line <> EmptyString
        /\ header_match (strip line) = Some m
        /\ group m 1 = Some num
        /\ group m 3 = Some txt
        /\ numbering num
        /\ render_line line
           = heading_paragraph (level_of num)
               (num ++ " " ++ upper (strip txt)))
  \/ (strip line <> EmptyString
      /\ header_match (strip line) = None
      /\ render_line line = body_paragraph (strip line)).
Proof.
  unfold render_line.
  destruct (strip line) as [|c t] eqn:Es; [left; auto|right].
  destruct (header_match (String c t)) as [m|] eqn:Em.
  - left.
    destruct (header_match_inv _ Em)
      as (num & ws & txt & tl & El & Htl & Hn & Hw & Ht & G1 & G3).
    exists m, num, txt. unfold heading_fields. rewrite G1, G3.
    repeat split; auto. discriminate.
  - right. repeat split; auto. discriminate.
Qed.

Section LineFacts.
Context {lib : Library}.

Lemma format_line_ok line d d' :
  format_line line d = Ok (tt, d') ->
  paragraphs d' = (paragraphs d ++ [render_line line])%list
  /\ sections d' = sections d
  /\ paragraph_error (render_line line) = None.
Proof.
  rewrite format_line_run.
  destruct (paragraph_error (render_line line)); [discriminate|].
  intros H; inversion H; subst; auto.
Qed.

End LineFacts.

Lemma level_of_1 num : level_of num = 1 <-> count "."%char num = 0.
Proof.
  unfold level_of. destruct (count "."%char num =? 0)%nat eqn:E.
  - apply Nat.eqb_eq in E. tauto.
  - apply Nat.eqb_neq in E. split; [discriminate|tauto].
Qed.

Lemma level_of_2 num : level_of num = 2 <-> 0 < count "."%char num.
Proof.
  unfold level_of. destruct (count "."%char num =? 0)%nat eqn:E.
  - apply Nat.eqb_eq in E. split; [discriminate|lia].
  - apply Nat.eqb_neq in E. split; [lia|reflexivity].
Qed.

(* ------------------------------------------------------------------ *)
(** ** The claims of the specification on single lines *)

(** C1.  A non-empty trimmed line is rendered as a heading if and only
    if the whole trimmed line is in the heading grammar (a numbering,
    optional white space, optional free text, a final colon); every
    other non-empty line is rendered as a body paragraph holding the
    trimmed line, in particular every line that does not end with a
    colon. *)
Theorem C1_heading_iff_grammar `{lib : Library}
    (line : string) (d d' : document) :
  strip line <> EmptyString ->
  format_line line d = Ok (tt, d') ->
  exists p,
    paragraphs d' = (paragraphs d ++ [p])%list
    /\ (is_heading (block_of p) <-> heading_grammar (strip line))
    /\ (~ heading_grammar (strip line) ->
        block_of p = BodyBlock (strip line))
    /\ (last_char (strip line) <> Some ":"%char ->
        block_of p = BodyBlock (strip line)).
Proof.
  intros Hne H. apply format_line_ok in H. destruct H as (Hp & _ & _).
  exists (render_line line). split; [assumption|].
  destruct (render_line_cases line)
    as [(E & _) | [(m & num & txt & _ & Em & _ & _ & _ & ->)
                  | (_ & Em & ->)]].
  - contradiction.
  - assert (G : heading_grammar (strip line))
      by (apply header_match_strip; congruence).
    repeat split.
    + intros _. exact G.
    + intros _. eexists _, _. reflexivity.
    + intros N. contradiction.
    + intros N. apply grammar_last in G. contradiction.
  - assert (G : ~ heading_grammar (strip line))
      by (intros G; apply header_match_strip in G; contradiction).
    repeat split.
    + intros (lvl & t & Hb). discriminate Hb.
    + intros G'. contradiction.
Qed.

(** C4.  A heading is of level 1 exactly when the matched numbering
    contains no dot, and of level 2 as soon as it contains one, whatever
    the depth; all level-2 headings share one styling.  So "3:" is of
    level 1, "3.2:" and "3.2.1:" of level 2. *)
Theorem C4_heading_level `{lib : Library}
    (line : string) (d d' : document) (m : match_object) :
  header_match (strip line) = Some m ->
  format_line line d = Ok (tt, d') ->
  (exists num title level,
     group m 1 = Some num
     /\ numbering num
     /\ paragraphs d'
        = (paragraphs d ++ [heading_paragraph level (num ++ " " ++ title)])%list
     /\ (level = 1 <-> count "."%char num = 0)
     /\ (level = 2 <-> 0 < count "."%char num))
  /\ map (fun l => block_of (render_line l)) ["3:"; "3.2:"; "3.2.1:"]
     = [HeadingBlock 1 "3 "; HeadingBlock 2 "3.2 "; HeadingBlock 2 "3.2.1 "]
  /\ map (fun l => runs (render_line l)) ["3.2:"; "3.2.1:"]
     = [[Run "3.2 " (times 14)]; [Run "3.2.1 " (times 14)]].
Proof.
  intros Em H. apply format_line_ok in H. destruct H as (Hp & _ & _).
  split; [|split; reflexivity].
  destruct (render_line_cases line)
    as [(E & _) | [(m' & num & txt & _ & Em' & G1 & _ & Hn & R)
                  | (_ & Em' & _)]].
  - rewrite E in Em. discriminate Em.
  - rewrite Em in Em'. inversion Em'; subst m'.
    exists num, (upper (strip txt)), (level_of num).
    rewrite R in Hp. auto using level_of_1, level_of_2.
  - congruence.
Qed.

(** C5.  A line made of a numbering and a colon only is a heading with
    the empty title; the heading text is the numbering followed by one
    space. *)
Theorem C5_empty_title `{lib : Library} (n : string) (d d' : document) :
  numbering n ->
  format_line (n ++ ":") d = Ok (tt, d') ->
  (exists m, header_match (strip (n ++ ":")) = Some m
             /\ heading_fields m = Some (n, EmptyString))
  /\ exists p level,
       paragraphs d' = (paragraphs d ++ [p])%list
       /\ block_of p = HeadingBlock level (n ++ " ")
       /\ p = heading_paragraph level (n ++ " ").
Proof.
  intros Hn H. apply format_line_ok in H. destruct H as (Hp & _ & _).
  destruct (header_match_bare Hn) as (m & Em & G1 & G3).
  assert (F : heading_fields m = Some (n, EmptyString))
    by (unfold heading_fields; rewrite G1, G3; reflexivity).
  rewrite (numbering_strip_fixed Hn).
  split; [exists m; auto|].
  exists (render_line (n ++ ":")), (level_of n).
  assert (R : render_line (n ++ ":") = heading_paragraph (level_of n) (n ++ " ")).
  { unfold render_line. rewrite (numbering_strip_fixed Hn).
    destruct (numbering_cons Hn) as (a & t & -> & _).
    change (String a t ++ ":") with (String a (t ++ ":")) in *.
    cbv iota. rewrite Em, F. reflexivity. }
  rewrite R in *. repeat split. assumption.
Qed.

(* ------------------------------------------------------------------ *)
(** ** The claims of the specification on whole documents *)

Lemma string_forallb_last p s z :
  string_forallb p s = true -> last_char s = Some z -> p z = true.
Proof.
  induction s as [|c s IH]; [discriminate|].
  simpl. intros H L. apply andb_prop in H. destruct H as (Hc & Hs).
  destruct s as [|b s]; [inversion L; subst; assumption|].
  apply IH; assumption.
Qed.

Lemma strip_not_empty_first c t :
  isspace c = false -> strip (String c t) <> EmptyString.
Proof.
  intros Hc E. apply strip_empty_iff in E. simpl in E.
  rewrite Hc in E. discriminate.
Qed.

Lemma strip_not_empty_last s z :
  last_char s = Some z -> isspace z = false -> strip s <> EmptyString.
Proof.
  intros L Hz E. apply strip_empty_iff in E.
  rewrite (string_forallb_last _ _ E L) in Hz. discriminate.
Qed.

Lemma split_hd c t :
  Ascii.eqb c LF = false ->
  exists h, hd EmptyString (split LF (String c t)) = String c h.
Proof.
  intros Hc. simpl. rewrite Hc.
  destruct (split LF t) as [|h tl]; simpl; eauto.
Qed.

Lemma split_last_char s z :
  last_char s = Some z -> Ascii.eqb z LF = false ->
  last_char (last (split LF s) EmptyString) = Some z.
Proof.
  induction s as [|c s IH]; [discriminate|].
  intros L Hz. destruct s as [|b s].
  - inversion L; subst. simpl. rewrite Hz. reflexivity.
  - specialize (IH L Hz).
    change (split LF (String c (String b s)))
      with (if Ascii.eqb c LF then EmptyString :: split LF (String b s)
            else match split LF (String b s) with
                 | h :: t => String c h :: t
                 | [] => [String c EmptyString]
                 end).
    pose proof (split_not_nil LF (String b s)) as N.
    destruct (split LF (String b s)) as [|h t]; [congruence|].
    destruct (Ascii.eqb c LF).
    + exact IH.
    + destruct t as [|h' t].
      * simpl in IH. destruct h; [discriminate|exact IH].
      * exact IH.
Qed.

Lemma space_LF z : isspace z = false -> Ascii.eqb z LF = false.
Proof.
  intros H. destruct (Ascii.eqb z LF) eqn:E; [|reflexivity].
  apply Ascii.eqb_eq in E. subst z. discriminate H.
Qed.

(** Unless the trimmed text is empty, its first and its last line are
    not blank. *)
Lemma edge_lines_not_blank txt :
  strip txt <> EmptyString ->
  strip (hd EmptyString (split LF (strip txt))) <> EmptyString
  /\ strip (last (split LF (strip txt)) EmptyString) <> EmptyString.
Proof.
  intros Hne. split.
  - destruct (strip txt) as [|c t] eqn:E; [congruence|].
    assert (Hc : isspace c = false)
      by (apply (strip_first txt); rewrite E; reflexivity).
    destruct (@split_hd c t (space_LF _ Hc)) as (h & ->).
    now apply strip_not_empty_first.
  - destruct (last_char (strip txt)) as [z|] eqn:L.
    + pose proof (strip_last _ L) as Hz.
      eapply strip_not_empty_last; [|exact Hz].
      apply split_last_char; [assumption|now apply space_LF].
    + destruct (strip txt) as [|c t]; [congruence|].
      exfalso. clear Hne. revert c L.
      induction t as [|b t IH]; intros c L; [discriminate|].
      apply (IH b). exact L.
Qed.

Lemma render_line_block line : line_block line (block_of (render_line line)).
Proof.
  destruct (render_line_cases line)
    as [(E & ->) | [(m & num & txt & Hne & Em & _ & _ & _ & ->)
                  | (Hne & Em & ->)]];
    unfold line_block.
  - repeat split; auto; contradiction.
  - repeat split.
    + intros E; contradiction.
    + discriminate.
    + intros _. left. eexists _, _. reflexivity.
    + intros _ G. exfalso. apply G. apply header_match_strip. congruence.
  - repeat split.
    + intros E; contradiction.
    + discriminate.
    + intros _. right. reflexivity.
Qed.

Lemma Forall2_map_graph {A B} (R : A -> B -> Prop) (f : A -> B) (l : list A) :
  (forall x, R x (f x)) -> Forall2 R l (map f l).
Proof. intros H. induction l; simpl; constructor; auto. Qed.

Lemma strip_trimmed_to s : trimmed_to s (strip s).
Proof.
  repeat split.
  - destruct (rstrip_prefix s) as (post & E & Hpost).
    destruct (lstrip_suffix (rstrip s)) as (pre & E' & Hpre).
    exists pre, post. repeat split; try assumption.
    fold (strip s) in E'. rewrite <- append_assoc, <- E'. exact E.
  - intros a. apply strip_first.
  - apply strip_last.
Qed.

Lemma join_lines_split s : join_lines (split LF s) = s.
Proof.
  unfold join_lines. induction s as [|c s IH]; [reflexivity|].
  simpl split. pose proof (split_not_nil LF s) as N.
  destruct (split LF s) as [|h t] eqn:E; [congruence|].
  destruct (Ascii.eqb c LF) eqn:Ec.
  - apply Ascii.eqb_eq in Ec. subst c.
    change (String.concat (String LF "") ("" :: h :: t))
      with (String LF (String.concat (String LF "") (h :: t))).
    now rewrite IH.
  - destruct t as [|h' t].
    + simpl in *. now rewrite IH.
    + change (String.concat (String LF "") (String c h :: h' :: t))
        with (String c (String.concat (String LF "") (h :: h' :: t))).
      now rewrite IH.
Qed.

Lemma render_line_trimmed_block line :
  trimmed_line_block line (block_of (render_line line)).
Proof.
  exists (strip line). split; [apply strip_trimmed_to|].
  split; [reflexivity|]. apply render_line_block.
Qed.

Section DocumentClaims.
Context {lib : Library}.

Lemma built_document_ok txt topic doc :
  built_document (Some txt) topic = Ok doc ->
  topic <> EmptyString
  /\ doc = Document_ page_setup (render txt topic)
  /\ first_error (render txt topic) = None.
Proof.
  rewrite built_document_run. destruct topic; [discriminate|].
  destruct (first_error _); [discriminate|].
  intros H; inversion H. repeat split. discriminate.
Qed.

Lemma blocks_render txt topic :
  blocks (Document_ page_setup (render txt topic))
  = TitleBlock (upper topic) :: BlankBlock :: BlankBlock
    :: map (fun l => block_of (render_line l)) (split LF (strip txt)).
Proof. unfold blocks, render. simpl. now rewrite map_map. Qed.

(** C2, on the code.  For the text of scenario A and the topic "Test"
    the first heading reads "1 . INTRODUCTION": the dot that follows
    the numbering is left in the title.  The other eight blocks are
    those of the scenario. *)
Theorem C2_scenario_A_blocks (doc : document) :
  built_document (Some scenario_A) "Test" = Ok doc ->
  blocks doc
  = [TitleBlock "TEST"; BlankBlock; BlankBlock;
     HeadingBlock 1 "1 . INTRODUCTION"; BlankBlock;
     BodyBlock "This is body text."; BlankBlock;
     HeadingBlock 2 "1.1 BACKGROUND"; BodyBlock "More body text."]
  /\ blocks doc
     <> [TitleBlock "TEST"; BlankBlock; BlankBlock;
         HeadingBlock 1 "1 INTRODUCTION"; BlankBlock;
         BodyBlock "This is body text."; BlankBlock;
         HeadingBlock 2 "1.1 BACKGROUND"; BodyBlock "More body text."].
Proof.
  intros H. apply built_document_ok in H. destruct H as (_ & -> & _).
  rewrite blocks_render.
  split; [vm_compute; reflexivity|vm_compute; discriminate].
Qed.

(** C3, amended.  The document holds the title block, the two blank
    blocks that follow it, and then exactly one block per line of the
    trimmed text: a blank block for a blank line, a heading or a body
    block for any other line.  The lines are one more than the line
    feeds of the trimmed text. *)
Theorem C3_one_block_per_line (txt topic : string) (doc : document) :
  built_document (Some txt) topic = Ok doc ->
  exists line_blocks,
    blocks doc
    = TitleBlock (upper topic) :: BlankBlock :: BlankBlock :: line_blocks
    /\ List.length line_blocks = List.length (split LF (strip txt))
    /\ Forall2 line_block (split LF (strip txt)) line_blocks
    /\ List.length (split LF (strip txt)) = S (count LF (strip txt))
    /\ List.length (blocks doc) = 3 + List.length (split LF (strip txt)).
Proof.
  intros H. apply built_document_ok in H. destruct H as (_ & -> & _).
  rewrite blocks_render.
  exists (map (fun l => block_of (render_line l)) (split LF (strip txt))).
  repeat split.
  - apply length_map.
  - apply Forall2_map_graph. apply render_line_block.
  - apply split_length.
  - simpl. now rewrite length_map.
Qed.

(** C8.  The text is trimmed as a whole: it is the trimmed text between
    two runs of white space, and the trimmed text neither starts nor
    ends with white space.  The trimmed text is split at its line
    feeds: the lines hold no line feed and, joined by line feeds, give
    the trimmed text back.  So white space around the text changes
    nothing, unless the trimmed text is empty its first and last lines
    are not blank, and every line in between, blank or not, gives its
    block.  Each line is trimmed in the same way: a line trimmed to
    nothing gives a blank block, and a body line a body block holding
    exactly the trimmed line. *)
Theorem C8_trim_and_split (txt topic : string) (doc : document) :
  built_document (Some txt) topic = Ok doc ->
  trimmed_to txt (strip txt)
  /\ join_lines (split LF (strip txt)) = strip txt
  /\ Forall (fun line => count LF line = 0) (split LF (strip txt))
  /\ (exists line_blocks,
        blocks doc
        = TitleBlock (upper topic) :: BlankBlock :: BlankBlock :: line_blocks
        /\ Forall2 trimmed_line_block (split LF (strip txt)) line_blocks
        /\ Forall2 line_block (split LF (strip txt)) line_blocks)
  /\ (strip txt <> EmptyString ->
      strip (hd EmptyString (split LF (strip txt))) <> EmptyString
      /\ strip (last (split LF (strip txt)) EmptyString) <> EmptyString)
  /\ (forall pre post,
        string_forallb isspace pre = true ->
        string_forallb isspace post = true ->
        built_document (Some (pre ++ txt ++ post)) topic = Ok doc).
Proof.
  intros H. pose proof (built_document_ok _ _ H) as (_ & -> & _).
  split; [apply strip_trimmed_to|].
  split; [apply join_lines_split|].
  split; [apply split_no_sep|].
  split.
  { rewrite blocks_render. eexists. split; [reflexivity|].
    split; apply Forall2_map_graph.
    - apply render_line_trimmed_block.
    - apply render_line_block. }
  split; [apply edge_lines_not_blank|].
  intros pre post Hpre Hpost.
  rewrite built_document_run in *. destruct topic; [discriminate|].
  unfold render in *. now rewrite (@strip_surrounded pre txt post Hpre Hpost).
Qed.

(** C10.  For an empty or all-white-space text, a non-empty topic the
    library accepts, the trimmed text splits into the single empty
    line, the document is the title block, its two blank blocks and
    one more blank block, and the formatter returns the payload without
    error as soon as the serialiser returns it. *)
Theorem C10_blank_text (txt topic : string) :
  string_forallb isspace txt = true ->
  topic <> EmptyString ->
  xml_error (upper topic) = None ->
  split LF (strip txt) = [EmptyString]
  /\ exists doc,
       built_document (Some txt) topic = Ok doc
       /\ blocks doc
          = [TitleBlock (upper topic); BlankBlock; BlankBlock; BlankBlock]
       /\ text_to_word_buffer (Some txt) topic
          = match save doc with
            | Ok doc_io => (Some doc_io, None)
            | Raise e => (None, Some ("Word Conversion Error: " ++ e))
            end.
Proof.
  intros Hs Ht Hx. rewrite (strip_spaces _ Hs). split; [reflexivity|].
  assert (B : built_document (Some txt) topic
              = Ok (Document_ page_setup (render txt topic))).
  { rewrite built_document_run. destruct topic as [|c t]; [congruence|].
    unfold render. rewrite (strip_spaces _ Hs).
    simpl. simpl in Hx. unfold paragraph_error. simpl. rewrite Hx. reflexivity. }
  exists (Document_ page_setup (render txt topic)). repeat split.
  - exact B.
  - rewrite blocks_render, (strip_spaces _ Hs). reflexivity.
  - unfold text_to_word_buffer, try_body.
    unfold built_document in B.
    destruct (format_document (Some txt) topic Document) as [[u d]|e];
      [|discriminate].
    inversion B; subst. reflexivity.
Qed.

End DocumentClaims.

(* ------------------------------------------------------------------ *)
(** ** The claims of the specification on the page *)

Lemma replace_underscored topic :
  replace "/"%char "_" (replace " "%char "_" topic) = underscored topic.
Proof.
  induction topic as [|a t IH]; [reflexivity|].
  simpl. destruct (Ascii.eqb a " "%char) eqn:Es.
  - simpl. now rewrite IH.
  - simpl. destruct (Ascii.eqb a "/"%char) eqn:Ed; simpl; now rewrite IH.
Qed.

Lemma generation_not_formatting msg :
  is_generation_error msg -> ~ is_formatting_error msg.
Proof. intros (e & ->) (e' & H). discriminate H. Qed.

Lemma formatting_not_generation msg :
  is_formatting_error msg -> ~ is_generation_error msg.
Proof. intros (e & ->) (e' & H). discriminate H. Qed.

Lemma generate_error_inv topic mdl report_text err :
  generate_report_with_gemini topic mdl = (report_text, Some err) ->
  report_text = None
  /\ truthy err = true
  /\ exists e, mdl (prompt_head ++ topic ++ prompt_tail) = Raise e
               /\ err = "Report Generation Error: " ++ e
                        ++ ". Please check your API key and input.".
Proof.
  unfold generate_report_with_gemini.
  destruct (mdl _) as [t|e]; intros H; inversion H; subst.
  repeat split. eauto.
Qed.

Section PageClaims.
Context {lib : Library}.

(** C6.  When the report requester returns an error, it returns no text
    with it, the message is a generation error and not a formatting
    error, the page shows it last, and the run neither calls the
    formatter nor offers a download. *)
Theorem C6_generation_error_stops (env : environment) (mdl : model)
    (topic : string) (report_text : option string) (err : string) :
  truthy topic = true ->
  get_gemini_model env = inr mdl ->
  generate_report_with_gemini topic mdl = (report_text, Some err) ->
  report_text = None
  /\ is_generation_error err
  /\ ~ is_formatting_error err
  /\ (exists shown,
        main env topic true
        = (shown ++ [Call_generate topic; St_error err])%list)
  /\ Forall (fun ev => ~ is_call_format ev /\ ~ is_download ev)
       (main env topic true).
Proof.
  intros Ht Hm Hg.
  destruct (generate_error_inv _ _ Hg) as (-> & Hy & e & He & ->).
  assert (G : is_generation_error
                ("Report Generation Error: " ++ e
                 ++ ". Please check your API key and input."))
    by (exists e; reflexivity).
  split; [reflexivity|]. split; [exact G|].
  split; [now apply generation_not_formatting|].
  unfold main. rewrite Ht, Hm, Hg. cbv beta iota delta [negb truthy_opt].
  rewrite Hy. split.
  - eexists (_ :: _ :: _ :: _ :: _ :: _ :: _ :: [_])%list. reflexivity.
  - repeat constructor; simpl; tauto.
Qed.

(** C7.  An exception raised while the document is built or saved is
    caught by the formatter: it returns no payload and a formatting
    error, which is not a generation error; the page shows the message
    last and offers no download. *)
Theorem C7_formatting_error_caught (env : environment) (mdl : model)
    (topic : string) (text_content : option string) (e : string) :
  truthy topic = true ->
  get_gemini_model env = inr mdl ->
  generate_report_with_gemini topic mdl = (text_content, None) ->
  (format_document text_content topic Document = Raise e
   \/ exists d, format_document text_content topic Document = Ok (tt, d)
                /\ save d = Raise e) ->
  text_to_word_buffer text_content topic
  = (None, Some ("Word Conversion Error: " ++ e))
  /\ is_formatting_error ("Word Conversion Error: " ++ e)
  /\ ~ is_generation_error ("Word Conversion Error: " ++ e)
  /\ (exists shown,
        main env topic true
        = (shown ++ [Call_format text_content topic;
                     St_error ("Word Conversion Error: " ++ e)])%list)
  /\ Forall (fun ev => ~ is_download ev) (main env topic true).
Proof.
  intros Ht Hm Hg Hf.
  assert (F : is_formatting_error ("Word Conversion Error: " ++ e))
    by (exists e; reflexivity).
  assert (T : text_to_word_buffer text_content topic
              = (None, Some ("Word Conversion Error: " ++ e))).
  { unfold text_to_word_buffer, try_body.
    destruct Hf as [-> | (d & -> & ->)]; reflexivity. }
  split; [exact T|]. split; [exact F|].
  split; [now apply formatting_not_generation|].
  unfold main. rewrite Ht, Hm, Hg, T. split.
  - eexists (_ :: _ :: _ :: _ :: _ :: _ :: _ :: _ :: _ :: [_])%list.
    reflexivity.
  - repeat constructor; simpl; tauto.
Qed.

(** C9.  The file name is the topic in which every space and every
    slash is an underscore, followed by "_report.docx"; the topic
    "A/B Test" gives "A_B_Test_report.docx"; every download the page
    offers bears that name. *)
Theorem C9_filename (topic : string) :
  filename topic = underscored topic ++ "_report.docx"
  /\ filename "A/B Test" = "A_B_Test_report.docx"
  /\ forall env clicked label data file_name mime,
       In (St_download_button label data file_name mime)
          (main env topic clicked) ->
       file_name = underscored topic ++ "_report.docx".
Proof.
  split; [unfold filename; now rewrite replace_underscored|].
  split; [reflexivity|].
  intros env clicked label data file_name mime.
  unfold main. intros H. apply in_app_or in H.
  destruct H as [H|H].
  - simpl in H. repeat (destruct H as [H|H]; [discriminate H|]). contradiction.
  - destruct clicked; [|contradiction].
    destruct (negb (truthy topic)).
    { simpl in H. destruct H as [H|[]]. discriminate H. }
    destruct (get_gemini_model env) as [stopped|mdl] eqn:Em.
    { unfold get_gemini_model in Em.
      destruct (cached_model env); [discriminate Em|].
      destruct (initialise_model env) as [m|[|e]];
        inversion Em; subst; simpl in H;
        repeat (destruct H as [H|H]; [discriminate H|]); contradiction. }
    apply in_app_or in H. destruct H as [H|H].
    { simpl in H. repeat (destruct H as [H|H]; [discriminate H|]). contradiction. }
    destruct (generate_report_with_gemini topic mdl) as [report_text error].
    destruct (truthy_opt error).
    { simpl in H. destruct H as [H|[]]. discriminate H. }
    apply in_app_or in H. destruct H as [H|H].
    { simpl in H. repeat (destruct H as [H|H]; [discriminate H|]). contradiction. }
    destruct (text_to_word_buffer report_text topic) as [doc_buffer word_error].
    destruct (truthy_opt word_error).
    { simpl in H. destruct H as [H|[]]. discriminate H. }
    simpl in H. destruct H as [H|[H|[H|[]]]].
    + discriminate H.
    + inversion H; subst. unfold filename. now rewrite replace_underscored.
    + destruct (getattr report_text "split"); discriminate H.
Qed.

End PageClaims.

(* ------------------------------------------------------------------ *)
(** ** The claims at concrete inputs *)

Lemma C1_heading_iff_grammar_witness :
  strip "  1.1 Background: " <> EmptyString
  /\ @format_line sample_library "  1.1 Background: " Document
     = Ok (tt, Document_ (sections Document)
                 [heading_paragraph 2 "1.1 BACKGROUND"])
  /\ exists p,
       paragraphs (Document_ (sections Document)
                     [heading_paragraph 2 "1.1 BACKGROUND"])
       = (paragraphs Document ++ [p])%list
       /\ (is_heading (block_of p)
           <-> heading_grammar (strip "  1.1 Background: "))
       /\ (~ heading_grammar (strip "  1.1 Background: ") ->
           block_of p = BodyBlock (strip "  1.1 Background: "))
       /\ (last_char (strip "  1.1 Background: ") <> Some ":"%char ->
           block_of p = BodyBlock (strip "  1.1 Background: ")).
Proof.
  assert (H1 : strip "  1.1 Background: " <> EmptyString)
    by (vm_compute; discriminate).
  assert (H2 : @format_line sample_library "  1.1 Background: " Document
               = Ok (tt, Document_ (sections Document)
                           [heading_paragraph 2 "1.1 BACKGROUND"]))
    by (vm_compute; reflexivity).
  exact (conj H1 (conj H2
           (@C1_heading_iff_grammar sample_library _ _ _ H1 H2))).
Defined.

Lemma C4_heading_level_witness :
  exists m,
    header_match (strip "3.2.1:") = Some m
    /\ @format_line sample_library "3.2.1:" Document
       = Ok (tt, Document_ (sections Document)
                   [heading_paragraph 2 "3.2.1 "])
    /\ exists num title level,
         group m 1 = Some num
         /\ numbering num
         /\ paragraphs (Document_ (sections Document)
                          [heading_paragraph 2 "3.2.1 "])
            = (paragraphs Document
               ++ [heading_paragraph level (num ++ " " ++ title)])%list
         /\ (level = 1 <-> count "."%char num = 0)
         /\ (level = 2 <-> 0 < count "."%char num).
Proof.
  eexists.
  assert (H2 : @format_line sample_library "3.2.1:" Document
               = Ok (tt, Document_ (sections Document)
                           [heading_paragraph 2 "3.2.1 "]))
    by (vm_compute; reflexivity).
  refine ((fun H1 =>
             conj H1 (conj H2
               (proj1 (@C4_heading_level sample_library _ _ _ _ H1 H2)))) _).
  vm_compute. reflexivity.
Defined.

Lemma C5_empty_title_witness :
  numbering "1"
  /\ @format_line sample_library ("1" ++ ":") Document
     = Ok (tt, Document_ (sections Document) [heading_paragraph 1 "1 "])
  /\ (exists m, header_match (strip ("1" ++ ":")) = Some m
                /\ heading_fields m = Some ("1", EmptyString))
  /\ exists p level,
       paragraphs (Document_ (sections Document) [heading_paragraph 1 "1 "])
       = (paragraphs Document ++ [p])%list
       /\ block_of p = HeadingBlock level ("1" ++ " ")
       /\ p = heading_paragraph level ("1" ++ " ").
Proof.
  assert (H1 : numbering "1").
  { exists "1", EmptyString. repeat split; try discriminate. constructor. }
  assert (H2 : @format_line sample_library ("1" ++ ":") Document
               = Ok (tt, Document_ (sections Document)
                           [heading_paragraph 1 "1 "]))
    by (vm_compute; reflexivity).
  exact (conj H1 (conj H2 (@C5_empty_title sample_library _ _ _ H1 H2))).
Defined.

Lemma C2_scenario_A_blocks_witness :
  @built_document sample_library (Some scenario_A) "Test"
  = Ok (Document_ page_setup (render scenario_A "Test"))
  /\ blocks (Document_ page_setup (render scenario_A "Test"))
     = [TitleBlock "TEST"; BlankBlock; BlankBlock;
        HeadingBlock 1 "1 . INTRODUCTION"; BlankBlock;
        BodyBlock "This is body text."; BlankBlock;
        HeadingBlock 2 "1.1 BACKGROUND"; BodyBlock "More body text."]
  /\ blocks (Document_ page_setup (render scenario_A "Test"))
     <> [TitleBlock "TEST"; BlankBlock; BlankBlock;
         HeadingBlock 1 "1 INTRODUCTION"; BlankBlock;
         BodyBlock "This is body text."; BlankBlock;
         HeadingBlock 2 "1.1 BACKGROUND"; BodyBlock "More body text."].
Proof.
  assert (H : @built_document sample_library (Some scenario_A) "Test"
              = Ok (Document_ page_setup (render scenario_A "Test")))
    by (vm_compute; reflexivity).
  exact (conj H (@C2_scenario_A_blocks sample_library _ H)).
Defined.

(** C3, as stated, fails: for the one-line text "a" the document holds
    three blocks besides the title block, for one line. *)
Lemma C3_counterexample :
  exists doc,
    @built_document sample_library (Some "a") "T" = Ok doc
    /\ List.length (tl (blocks doc)) <> List.length (split LF (strip "a")).
Proof.
  exists (Document_ page_setup (render "a" "T")).
  split; [vm_compute; reflexivity|vm_compute; discriminate].
Qed.

Lemma C3_one_block_per_line_witness :
  @built_document sample_library (Some "a") "T"
  = Ok (Document_ page_setup (render "a" "T"))
  /\ exists line_blocks,
       blocks (Document_ page_setup (render "a" "T"))
       = TitleBlock (upper "T") :: BlankBlock :: BlankBlock :: line_blocks
       /\ List.length line_blocks = List.length (split LF (strip "a"))
       /\ Forall2 line_block (split LF (strip "a")) line_blocks
       /\ List.length (split LF (strip "a")) = S (count LF (strip "a"))
       /\ List.length (blocks (Document_ page_setup (render "a" "T")))
          = 3 + List.length (split LF (strip "a")).
Proof.
  assert (H : @built_document sample_library (Some "a") "T"
              = Ok (Document_ page_setup (render "a" "T")))
    by (vm_compute; reflexivity).
  exact (conj H (@C3_one_block_per_line sample_library _ _ _ H)).
Defined.

Lemma C8_trim_and_split_witness :
  @built_document sample_library (Some padded_text) "Test"
  = Ok (Document_ page_setup (render padded_text "Test"))
  /\ strip padded_text
     = "Intro text  

1.1 Scope:"
  /\ split LF (strip padded_text) = ["Intro text  "; ""; "1.1 Scope:"]
  /\ blocks (Document_ page_setup (render padded_text "Test"))
     = [TitleBlock "TEST"; BlankBlock; BlankBlock;
        BodyBlock "Intro text"; BlankBlock; HeadingBlock 2 "1.1 SCOPE"]
  /\ (trimmed_to padded_text (strip padded_text)
      /\ join_lines (split LF (strip padded_text)) = strip padded_text
      /\ Forall (fun line => count LF line = 0)
           (split LF (strip padded_text))
      /\ (exists line_blocks,
            blocks (Document_ page_setup (render padded_text "Test"))
            = TitleBlock (upper "Test") :: BlankBlock :: BlankBlock
              :: line_blocks
            /\ Forall2 trimmed_line_block (split LF (strip padded_text))
                 line_blocks
            /\ Forall2 line_block (split LF (strip padded_text))
                 line_blocks)
      /\ (strip padded_text <> EmptyString ->
          strip (hd EmptyString (split LF (strip padded_text)))
          <> EmptyString
          /\ strip (last (split LF (strip padded_text)) EmptyString)
             <> EmptyString)
      /\ (forall pre post,
            string_forallb isspace pre = true ->
            string_forallb isspace post = true ->
            @built_document sample_library
              (Some (pre ++ padded_text ++ post)) "Test"
            = Ok (Document_ page_setup (render padded_text "Test")))).
Proof.
  assert (H : @built_document sample_library (Some padded_text) "Test"
              = Ok (Document_ page_setup (render padded_text "Test")))
    by (vm_compute; reflexivity).
  refine (conj H (conj _ (conj _ (conj _
            (@C8_trim_and_split sample_library _ _ _ H)))));
    vm_compute; reflexivity.
Defined.

Lemma C10_blank_text_witness :
  string_forallb isspace "  
 " = true
  /\ "Test" <> EmptyString
  /\ @xml_error sample_library (upper "Test") = None
  /\ split LF (strip "  
 ") = [EmptyString]
  /\ exists doc,
       @built_document sample_library (Some "  
 ") "Test" = Ok doc
       /\ blocks doc
          = [TitleBlock (upper "Test"); BlankBlock; BlankBlock; BlankBlock]
       /\ @text_to_word_buffer sample_library (Some "  
 ") "Test"
          = match @save sample_library doc with
            | Ok doc_io => (Some doc_io, None)
            | Raise e => (None, Some ("Word Conversion Error: " ++ e))
            end.
Proof.
  assert (H1 : string_forallb isspace "  
 " = true) by reflexivity.
  assert (H2 : "Test" <> EmptyString) by discriminate.
  assert (H3 : @xml_error sample_library (upper "Test") = None)
    by reflexivity.
  exact (conj H1 (conj H2 (conj H3
           (@C10_blank_text sample_library _ _ H1 H2 H3)))).
Defined.

Lemma C6_generation_error_stops_witness :
  truthy "Test" = true
  /\ @get_gemini_model sample_library
       (Environment None (Done "key")
          (fun _ => Done (fun _ => Raise "quota exceeded")))
     = inr (fun _ => Raise "quota exceeded")
  /\ generate_report_with_gemini "Test" (fun _ => Raise "quota exceeded")
     = (None,
        Some "Report Generation Error: quota exceeded. Please check your API key and input.")
  /\ (@None string = None
      /\ is_generation_error
           "Report Generation Error: quota exceeded. Please check your API key and input."
      /\ ~ is_formatting_error
             "Report Generation Error: quota exceeded. Please check your API key and input."
      /\ (exists shown,
            @main sample_library
              (Environment None (Done "key")
                 (fun _ => Done (fun _ => Raise "quota exceeded")))
              "Test" true
            = (shown
               ++ [Call_generate "Test";
                   St_error
                     "Report Generation Error: quota exceeded. Please check your API key and input."])%list)
      /\ Forall (fun ev => ~ is_call_format ev /\ ~ is_download ev)
           (@main sample_library
              (Environment None (Done "key")
                 (fun _ => Done (fun _ => Raise "quota exceeded")))
              "Test" true)).
Proof.
  assert (H1 : truthy "Test" = true) by reflexivity.
  assert (H2 : @get_gemini_model sample_library
                 (Environment None (Done "key")
                    (fun _ => Done (fun _ => Raise "quota exceeded")))
               = inr (fun _ => Raise "quota exceeded")) by reflexivity.
  assert (H3 : generate_report_with_gemini "Test"
                 (fun _ => Raise "quota exceeded")
               = (None,
                  Some "Report Generation Error: quota exceeded. Please check your API key and input."))
    by reflexivity.
  exact (conj H1 (conj H2 (conj H3
           (@C6_generation_error_stops sample_library _ _ _ _ _ H1 H2 H3)))).
Defined.

Lemma C7_formatting_error_caught_witness :
  truthy "T" = true
  /\ @get_gemini_model read_only_library
       (Environment None (Done "key")
          (fun _ => Done (fun _ => Ok "1: a")))
     = inr (fun _ => Ok "1: a")
  /\ generate_report_with_gemini "T" (fun _ => Ok "1: a")
     = (Some "1: a", None)
  /\ (@format_document read_only_library (Some "1: a") "T" Document
      = Raise "stream is not writable"
      \/ exists d,
           @format_document read_only_library (Some "1: a") "T" Document
           = Ok (tt, d)
           /\ @save read_only_library d = Raise "stream is not writable")
  /\ (@text_to_word_buffer read_only_library (Some "1: a") "T"
      = (None, Some ("Word Conversion Error: " ++ "stream is not writable"))
      /\ is_formatting_error
           ("Word Conversion Error: " ++ "stream is not writable")
      /\ ~ is_generation_error
             ("Word Conversion Error: " ++ "stream is not writable")
      /\ (exists shown,
            @main read_only_library
              (Environment None (Done "key")
          (fun _ => Done (fun _ => Ok "1: a")))
              "T" true
            = (shown
               ++ [Call_format (Some "1: a") "T";
                   St_error
                     ("Word Conversion Error: " ++ "stream is not writable")])%list)
      /\ Forall (fun ev => ~ is_download ev)
           (@main read_only_library
              (Environment None (Done "key")
          (fun _ => Done (fun _ => Ok "1: a")))
              "T" true)).
Proof.
  assert (H1 : truthy "T" = true) by reflexivity.
  assert (H2 : @get_gemini_model read_only_library
                 (Environment None (Done "key")
          (fun _ => Done (fun _ => Ok "1: a")))
               = inr (fun _ => Ok "1: a")) by reflexivity.
  assert (H3 : generate_report_with_gemini "T" (fun _ => Ok "1: a")
               = (Some "1: a", None)) by reflexivity.
  assert (H4 : @format_document read_only_library (Some "1: a") "T" Document
               = Raise "stream is not writable"
               \/ exists d,
                    @format_document read_only_library (Some "1: a") "T"
                      Document
                    = Ok (tt, d)
                    /\ @save read_only_library d
                       = Raise "stream is not writable").
  { right. eexists. split; [vm_compute; reflexivity|reflexivity]. }
  exact (conj H1 (conj H2 (conj H3 (conj H4
           (@C7_formatting_error_caught read_only_library _ _ _ _ _
              H1 H2 H3 H4))))).
Defined.

(* ------------------------------------------------------------------ *)
(** ** Further properties of the formatter *)

Lemma string_forallb_lstrip p s :
  string_forallb p s = true -> string_forallb p (lstrip s) = true.
Proof.
  induction s as [|c s IH]; simpl; [auto|].
  intros H. destruct (isspace c); [|exact H].
  apply andb_prop in H. apply IH, H.
Qed.

Lemma string_forallb_rstrip p s :
  string_forallb p s = true -> string_forallb p (rstrip s) = true.
Proof.
  destruct (rstrip_prefix s) as (post & E & _).
  intros H. rewrite E, string_forallb_append in H.
  apply andb_prop in H. apply H.
Qed.

Lemma string_forallb_strip p s :
  string_forallb p s = true -> string_forallb p (strip s) = true.
Proof.
  intros H. unfold strip. now apply string_forallb_lstrip, string_forallb_rstrip.
Qed.

Lemma string_forallb_tail p a b :
  string_forallb p (a ++ b) = true -> string_forallb p b = true.
Proof.
  rewrite string_forallb_append. intros H. apply andb_prop in H. apply H.
Qed.

(** A string that ends with [z] is some string followed by [z]. *)
Lemma last_char_split s z :
  last_char s = Some z -> exists t, s = t ++ String z EmptyString.
Proof.
  induction s as [|c s IH]; [discriminate|].
  destruct s as [|b s].
  - intros H; inversion H; subst. exists EmptyString. reflexivity.
  - intros H. destruct (IH H) as (t & E).
    exists (String c t). simpl. now rewrite <- E.
Qed.

(** Without line feed, the grammar comes down to the two ends of the
    line. *)
Lemma grammar_iff_ends l :
  string_forallb not_LF l = true ->
  heading_grammar l
  <-> (exists c, first_char l = Some c /\ isdecimal c = true)
      /\ last_char l = Some ":"%char.
Proof.
  intros Hl. split.
  - intros G. split; [|now apply grammar_last].
    destruct G as (num & ws & txt & -> & Hn & _).
    destruct (numbering_cons Hn) as (a & t & -> & Ha).
    exists a. auto.
  - intros ((c & Hc & Hd) & Hz).
    destruct l as [|c' l']; [discriminate|]. inversion Hc; subst c'.
    destruct (last_char_split _ Hz) as (t & E).
    destruct t as [|c' t].
    + simpl in E. inversion E; subst. discriminate Hd.
    + simpl in E. inversion E; subst c' l'.
      exists (String c EmptyString), EmptyString, t. repeat split.
      * exists (String c EmptyString), EmptyString.
        repeat split; [discriminate|simpl; now rewrite Hd|constructor].
      * simpl in Hl. apply andb_prop in Hl. destruct Hl as (_ & Hl).
        rewrite string_forallb_append in Hl. apply andb_prop in Hl. apply Hl.
Qed.

Section FormatterProperties.
Context {lib : Library}.

(** X1.  A line as the split leaves it (no line feed) is written as a
    heading exactly when, once trimmed, it starts with a decimal digit
    and ends with a colon; whatever stands in between does not
    matter. *)
Theorem heading_iff_digit_and_colon (line : string) (d d' : document) :
  string_forallb not_LF line = true ->
  strip line <> EmptyString ->
  format_line line d = Ok (tt, d') ->
  exists p,
    paragraphs d' = (paragraphs d ++ [p])%list
    /\ (is_heading (block_of p)
        <-> (exists c, first_char (strip line) = Some c
                       /\ isdecimal c = true)
            /\ last_char (strip line) = Some ":"%char)
    /\ (is_heading (block_of p) \/ block_of p = BodyBlock (strip line)).
Proof.
  intros Hl Hne H. apply format_line_ok in H. destruct H as (Hp & _ & _).
  exists (render_line line). split; [assumption|].
  pose proof (@grammar_iff_ends (strip line) (string_forallb_strip _ _ Hl)) as G.
  destruct (render_line_cases line)
    as [(E & _) | [(m & num & txt & _ & Em & _ & _ & _ & ->)
                  | (_ & Em & ->)]].
  - contradiction.
  - assert (Hh : is_heading
                   (block_of (heading_paragraph (level_of num)
                                (num ++ " " ++ upper (strip txt)))))
      by (eexists _, _; reflexivity).
    split; [|left; exact Hh].
    split; [intros _|intros _; exact Hh].
    apply G. apply header_match_strip. congruence.
  - split; [|right; reflexivity].
    split.
    + intros (lvl & t & Hb). discriminate Hb.
    + intros He. apply G in He. apply header_match_strip in He.
      contradiction.
Qed.

(** X3.  White space around a line, indentation or a carriage return left
    by a CR LF line end, has no effect on what is written for it. *)
Theorem surrounding_space_ignored (pre line post : string) (d : document) :
  string_forallb isspace pre = true ->
  string_forallb isspace post = true ->
  format_line (pre ++ line ++ post) d = format_line line d.
Proof.
  intros Hpre Hpost. unfold format_line.
  now rewrite (@strip_surrounded pre line post Hpre Hpost).
Qed.

Lemma try_body_built text_content topic :
  try_body text_content topic
  = match built_document text_content topic with
    | Ok d => save d
    | Raise e => Raise e
    end.
Proof.
  unfold try_body, built_document.
  destruct (format_document text_content topic Document) as [[u d]|e];
    reflexivity.
Qed.

(** X4.  With an empty topic the formatter fails, whatever the text: the
    title paragraph has no run to style. *)
Theorem empty_topic_index_error (text_content : option string) :
  text_to_word_buffer text_content EmptyString
  = (None, Some "Word Conversion Error: list index out of range").
Proof. destruct text_content; reflexivity. Qed.

(** X5.  With [None] for the text the formatter fails on the trim, once the
    title has been written. *)
Theorem none_text_attribute_error (topic : string) :
  topic <> EmptyString ->
  xml_error (upper topic) = None ->
  text_to_word_buffer None topic
  = (None,
     Some "Word Conversion Error: 'NoneType' object has no attribute 'strip'").
Proof.
  intros Ht Hx. unfold text_to_word_buffer, try_body, format_document.
  destruct topic as [|c t]; [congruence|].
  destruct (upper_cons c t) as (a & u & Eu). rewrite Eu in *.
  do 4 (erewrite bind_ok by reflexivity).
  rewrite bind_eq.
  change (add_heading (String a u) 0)
    with (add_paragraph_styled (String a u) Title).
  rewrite add_paragraph_styled_run.
  unfold paragraph_error. simpl runs. simpl truthy. cbv iota. simpl text.
  rewrite Hx.
  do 5 (erewrite bind_ok by reflexivity).
  reflexivity.
Qed.

(** X6.  The formatter returns a payload exactly when the topic is not
    empty, the XML layer refuses none of the texts to write and the
    serialiser returns the payload for the document of [render]. *)
Theorem formatter_success_iff (txt topic : string) (doc_io : payload) :
  text_to_word_buffer (Some txt) topic = (Some doc_io, None)
  <-> topic <> EmptyString
      /\ first_error (render txt topic) = None
      /\ save (Document_ page_setup (render txt topic)) = Ok doc_io.
Proof.
  unfold text_to_word_buffer. rewrite try_body_built, built_document_run.
  destruct topic as [|c t].
  - split; [discriminate|intros (H & _); congruence].
  - destruct (first_error (render txt (String c t))) as [e|].
    + split; [discriminate|intros (_ & H & _); discriminate].
    + destruct (save _) as [pl|e].
      * split.
        -- intros H; inversion H; subst. repeat split. discriminate.
        -- intros (_ & _ & H); inversion H; subst. reflexivity.
      * split; [discriminate|intros (_ & _ & H); discriminate].
Qed.

Lemma first_error_in (ps : list paragraph) (p : paragraph) (e : string) :
  In p ps -> paragraph_error p = Some e ->
  exists e', first_error ps = Some e'.
Proof.
  induction ps as [|q ps IH]; [contradiction|].
  intros [->|Hin] He; simpl.
  - rewrite He. eauto.
  - destruct (paragraph_error q); eauto.
Qed.

(** X7.  One refused line loses the whole document: when the XML layer
    refuses the trimmed text of a body line, the formatter returns no
    payload and a formatting error, whatever the other lines are. *)
Theorem refused_line_loses_document (txt topic line e : string) :
  In line (split LF (strip txt)) ->
  strip line <> EmptyString ->
  header_match (strip line) = None ->
  xml_error (strip line) = Some e ->
  exists e',
    text_to_word_buffer (Some txt) topic
    = (None, Some ("Word Conversion Error: " ++ e')).
Proof.
  intros Hin Hne Hm Hx.
  unfold text_to_word_buffer. rewrite try_body_built, built_document_run.
  destruct topic as [|c t]; [eauto|].
  assert (R : render_line line = body_paragraph (strip line)).
  { destruct (render_line_cases line)
      as [(E & _) | [(m & num & g3 & _ & Em & _) | (_ & _ & R)]];
      [contradiction|congruence|exact R]. }
  destruct (@first_error_in (render txt (String c t)) (render_line line) e)
    as (e' & He').
  - unfold render. right. right. right. now apply in_map.
  - rewrite R. exact Hx.
  - rewrite He'. eauto.
Qed.

End FormatterProperties.

(* ------------------------------------------------------------------ *)
(** ** Invariants of the document *)

Lemma render_line_styled line :
  Forall styled_run (runs (render_line line))
  /\ List.length (runs (render_line line)) <= 1
  /\ line_kind (block_of (render_line line)).
Proof.
  assert (S : forall txt sz, In sz [20; 16; 14; 12]%Z ->
                             styled_run (Run txt (times sz))).
  { intros txt sz Hin. split; [reflexivity|]. exists sz. auto. }
  destruct (render_line_cases line)
    as [(_ & ->) | [(m & num & txt & _ & _ & _ & _ & _ & ->)
                  | (_ & _ & ->)]].
  - repeat split; [constructor|simpl; lia|left; reflexivity].
  - unfold level_of. destruct (count "."%char num =? 0)%nat; repeat split.
    + repeat constructor. apply S. simpl. auto.
    + simpl. lia.
    + right. right. left. eexists. reflexivity.
    + repeat constructor. apply S. simpl. auto.
    + simpl. lia.
    + right. right. right. eexists. reflexivity.
  - repeat split.
    + repeat constructor. apply S. simpl. auto 6.
    + simpl. lia.
    + right. left. eexists. reflexivity.
Qed.

Lemma split_app sep a b :
  split sep (a ++ String sep b) = (split sep a ++ split sep b)%list.
Proof.
  induction a as [|c a IH]; simpl.
  - now rewrite Ascii.eqb_refl.
  - rewrite IH. destruct (Ascii.eqb c sep); [reflexivity|].
    pose proof (split_not_nil sep a) as N.
    destruct (split sep a); [congruence|reflexivity].
Qed.

(** X12.  Joining the lines of a text by line feeds gives the text back:
    the split loses nothing and adds nothing. *)
Theorem split_join_round_trip (s : string) :
  join_lines (split LF s) = s.
Proof.
  unfold join_lines. induction s as [|c s IH]; [reflexivity|].
  simpl split. destruct (Ascii.eqb c LF) eqn:Ec.
  - apply Ascii.eqb_eq in Ec. subst c.
    pose proof (split_not_nil LF s) as N.
    destruct (split LF s) as [|h t] eqn:E; [congruence|].
    change (String.concat (String LF "") ("" :: h :: t))
      with (String LF (String.concat (String LF "") (h :: t))).
    now rewrite IH.
  - pose proof (split_not_nil LF s) as N.
    destruct (split LF s) as [|h t] eqn:E; [congruence|].
    destruct t as [|h' t].
    + simpl in *. now rewrite IH.
    + change (String.concat (String LF "") (String c h :: h' :: t))
        with (String c (String.concat (String LF "") (h :: h' :: t))).
      now rewrite IH.
Qed.

Section DocumentInvariants.
Context {lib : Library}.

(** X8.  Whatever the text, the document has one section, with a margin of
    one inch (914400 English Metric Units) on each of the four sides. *)
Theorem margins_one_inch (txt topic : string) (doc : document) :
  built_document (Some txt) topic = Ok doc ->
  sections doc = [Section_ 914400 914400 914400 914400].
Proof.
  intros H. apply built_document_ok in H. destruct H as (_ & -> & _).
  reflexivity.
Qed.

(** X9.  Every run of the document is in Times New Roman at 20, 16, 14 or
    12 points, and no paragraph has more than one run. *)
Theorem every_run_styled (txt topic : string) (doc : document) :
  built_document (Some txt) topic = Ok doc ->
  Forall (fun p => Forall styled_run (runs p) /\ List.length (runs p) <= 1)
    (paragraphs doc).
Proof.
  intros H. apply built_document_ok in H. destruct H as (_ & -> & _).
  simpl. repeat constructor.
  - exists 20%Z. simpl. auto.
  - apply Forall_forall. intros p Hin. apply in_map_iff in Hin.
    destruct Hin as (line & <- & _).
    destruct (render_line_styled line) as (A & B & _). auto.
Qed.

(** X10.  The document starts with the only title block it has; after the
    two blank blocks, every block is blank, a body paragraph or a
    heading of level 1 or 2: the loop writes no other level and no
    second title. *)
Theorem only_two_heading_levels (txt topic : string) (doc : document) :
  built_document (Some txt) topic = Ok doc ->
  exists line_blocks,
    blocks doc
    = TitleBlock (upper topic) :: BlankBlock :: BlankBlock :: line_blocks
    /\ Forall line_kind line_blocks.
Proof.
  intros H. apply built_document_ok in H. destruct H as (_ & -> & _).
  rewrite blocks_render. eexists. split; [reflexivity|].
  apply Forall_forall. intros b Hin. apply in_map_iff in Hin.
  destruct Hin as (line & <- & _).
  apply render_line_styled.
Qed.

Lemma first_error_app (ps qs : list paragraph) :
  first_error (ps ++ qs)
  = match first_error ps with
    | Some e => Some e
    | None => first_error qs
    end.
Proof.
  induction ps as [|p ps IH]; simpl; [reflexivity|].
  destruct (paragraph_error p); [reflexivity|exact IH].
Qed.

Lemma first_error_lines' (ps : list paragraph) (t : paragraph) :
  first_error (t :: blank_paragraph :: blank_paragraph :: ps) = None ->
  first_error (t :: blank_paragraph :: blank_paragraph :: []) = None
  /\ first_error ps = None.
Proof.
  simpl. destruct (paragraph_error t); [discriminate|].
  unfold paragraph_error. simpl. auto.
Qed.

(** X11.  The lines are rendered one by one, without context: for two
    trimmed, non-empty texts, the document of the first text, a line
    feed and the second text is the document of the first text followed
    by the paragraphs written for the lines of the second. *)
Theorem texts_compose (a b topic : string) (da db : document) :
  strip a = a -> a <> EmptyString ->
  strip b = b -> b <> EmptyString ->
  built_document (Some a) topic = Ok da ->
  built_document (Some b) topic = Ok db ->
  built_document (Some (a ++ String LF b)) topic
  = Ok (Document_ page_setup (paragraphs da ++ skipn 3 (paragraphs db))).
Proof.
  intros Sa Na Sb Nb Ha Hb.
  apply built_document_ok in Ha. destruct Ha as (Ht & -> & Ea).
  apply built_document_ok in Hb. destruct Hb as (_ & -> & Eb).
  assert (S : strip (a ++ String LF b) = a ++ String LF b).
  { apply strip_fixed.
    - intros c Hc. apply (strip_first a). rewrite Sa.
      destruct a; [congruence|exact Hc].
    - intros c Hc. apply (strip_last b). rewrite Sb.
      destruct b as [|x b]; [congruence|].
      rewrite last_char_append_cons in Hc. exact Hc. }
  rewrite built_document_run. destruct topic as [|c t]; [congruence|].
  unfold render in *. rewrite S, Sa, Sb in *. rewrite split_app, map_app.
  simpl skipn. simpl paragraphs.
  apply first_error_lines' in Eb.
  change (title_paragraph (upper (String c t)) :: blank_paragraph
          :: blank_paragraph
          :: (map render_line (split LF a) ++ map render_line (split LF b))%list)
    with ((title_paragraph (upper (String c t)) :: blank_paragraph
           :: blank_paragraph :: map render_line (split LF a))
          ++ map render_line (split LF b))%list.
  rewrite first_error_app, Ea.
  destruct Eb as (_ & ->). reflexivity.
Qed.

End DocumentInvariants.

(* ------------------------------------------------------------------ *)
(** ** Further properties of the page *)

Lemma string_forallb_of_list p l :
  string_forallb p (string_of_list_ascii l) = forallb p l.
Proof. induction l as [|a l IH]; simpl; [reflexivity|now rewrite IH]. Qed.

Lemma forallb_reverse {A} (p : A -> bool) (l : list A) :
  forallb p (rev l) = forallb p l.
Proof.
  induction l as [|a l IH]; simpl; [reflexivity|].
  rewrite forallb_app, IH. simpl. rewrite andb_true_r. apply andb_comm.
Qed.

Lemma split_ws_aux_words cur s :
  forallb (fun a => negb (isspace a)) cur = true ->
  Forall (fun w => w <> EmptyString
                   /\ string_forallb (fun a => negb (isspace a)) w = true)
    (split_ws_aux cur s).
Proof.
  revert cur. induction s as [|c s IH]; intros cur Hc.
  - simpl. destruct cur as [|a cur]; [constructor|].
    constructor; [|constructor]. split.
    + intros E. apply (f_equal list_ascii_of_string) in E.
      rewrite list_ascii_of_string_of_list_ascii in E. simpl in E.
      destruct (rev cur); discriminate E.
    + now rewrite string_forallb_of_list, forallb_reverse.
  - simpl. destruct (isspace c) eqn:Ec.
    + apply Forall_app. split; [|now apply IH].
      destruct cur as [|a cur]; [constructor|].
      constructor; [|constructor]. split.
      * intros E. apply (f_equal list_ascii_of_string) in E.
        rewrite list_ascii_of_string_of_list_ascii in E. simpl in E.
        destruct (rev cur); discriminate E.
      * now rewrite string_forallb_of_list, forallb_reverse.
    + apply IH. simpl. now rewrite Ec.
Qed.

Lemma split_ws_aux_nil cur s :
  split_ws_aux cur s = []
  <-> cur = [] /\ string_forallb isspace s = true.
Proof.
  revert cur. induction s as [|c s IH]; intros cur.
  - simpl. destruct cur; split; auto; try discriminate.
    intros (H & _). discriminate H.
  - simpl. destruct (isspace c) eqn:Ec; simpl.
    + destruct cur; simpl.
      * rewrite IH. tauto.
      * split; [discriminate|intros (H & _); discriminate H].
    + rewrite IH.
      split; [intros (H & _); discriminate H|intros (_ & H); discriminate H].
Qed.

(** X18.  The words counted for the report are the maximal runs without white
    space: none is empty, none holds white space, and there is none
    exactly when the report is empty or white space only. *)
Theorem counted_words (s : string) :
  Forall (fun w => w <> EmptyString
                   /\ string_forallb (fun a => negb (isspace a)) w = true)
    (split_ws s)
  /\ (List.length (split_ws s) = 0 <-> string_forallb isspace s = true).
Proof.
  split; [now apply split_ws_aux_words|].
  unfold split_ws. rewrite length_zero_iff_nil, split_ws_aux_nil. tauto.
Qed.

Section PageProperties.
Context {lib : Library}.

(** X13.  With nothing in the cache, a [KeyError] raised in the [try] of
    the initialisation, by the look-up of the key or by the
    configuration of the client, makes a run with a topic show the
    missing-key error and stop: no worker is called, no download is
    offered and nothing is cached. *)
Theorem missing_key_stops (env : environment) (topic : string) :
  truthy topic = true ->
  cached_model env = None ->
  (secrets_GOOGLE_API_KEY env = Fails KeyError
   \/ exists api_key,
        secrets_GOOGLE_API_KEY env = Done api_key
        /\ configure env api_key = Fails KeyError) ->
  outcome (main env topic true)
  = [St_error "Error: GOOGLE_API_KEY not found in Streamlit secrets.";
     St_stop]
  /\ cached_after env topic true = None.
Proof.
  intros Ht Hc Hk.
  assert (I : initialise_model env = Fails KeyError).
  { unfold initialise_model. destruct Hk as [->|(k & -> & ->)]; reflexivity. }
  unfold cached_after, cached_after_call, main, get_gemini_model.
  rewrite Ht, Hc, I. split; reflexivity.
Qed.

(** X14.  With nothing in the cache, any other exception raised in the
    [try] of the initialisation, by the look-up of the key (no secret
    store at all, say) or by the configuration of the client, makes a
    run with a topic show its message after "Error configuring
    Gemini: " and stop: no worker is called, no download is offered and
    nothing is cached. *)
Theorem configuration_error_stops (env : environment) (topic e : string) :
  truthy topic = true ->
  cached_model env = None ->
  (secrets_GOOGLE_API_KEY env = Fails (OtherException e)
   \/ exists api_key,
        secrets_GOOGLE_API_KEY env = Done api_key
        /\ configure env api_key = Fails (OtherException e)) ->
  outcome (main env topic true)
  = [St_error ("Error configuring Gemini: " ++ e); St_stop]
  /\ cached_after env topic true = None.
Proof.
  intros Ht Hc Hk.
  assert (I : initialise_model env = Fails (OtherException e)).
  { unfold initialise_model. destruct Hk as [->|(k & -> & ->)]; reflexivity. }
  unfold cached_after, cached_after_call, main, get_gemini_model.
  rewrite Ht, Hc, I. split; reflexivity.
Qed.

(** X21.  The model is initialised once: a run with a topic that
    obtains the model leaves it in the cache, and a run that finds it
    there neither reads the secret store nor configures the client
    again, so that it is the same whatever these have become. *)
Theorem cached_model_reused (env env2 env3 : environment) (mdl : model)
    (topic topic2 : string) (clicked2 : bool) :
  truthy topic = true ->
  cached_model env = None ->
  initialise_model env = Done mdl ->
  cached_model env2 = cached_after env topic true ->
  cached_model env3 = cached_after env topic true ->
  cached_after env topic true = Some mdl
  /\ get_gemini_model env2 = inr mdl
  /\ main env2 topic2 clicked2 = main env3 topic2 clicked2
  /\ cached_after env2 topic2 clicked2 = Some mdl.
Proof.
  intros Ht Hc Hi H2 H3.
  assert (A : cached_after env topic true = Some mdl).
  { unfold cached_after, cached_after_call, get_gemini_model.
    rewrite Ht, Hc, Hi. reflexivity. }
  rewrite A in H2, H3.
  assert (G2 : get_gemini_model env2 = inr mdl)
    by (unfold get_gemini_model; now rewrite H2).
  assert (G3 : get_gemini_model env3 = inr mdl)
    by (unfold get_gemini_model; now rewrite H3).
  repeat split; try assumption.
  - unfold main. now rewrite G2, G3.
  - unfold cached_after, cached_after_call. rewrite G2, H2.
    destruct (clicked2 && truthy topic2); reflexivity.
Qed.

(** X15.  The topic is checked before anything else: with an empty topic a
    click shows the one error of the guard, and without a click nothing
    is shown beyond the form; in both cases the run is the same in
    every environment, the secret store is not read and no worker is
    called. *)
Theorem idle_run_asks_nothing (env env' : environment) (topic : string) :
  outcome (main env EmptyString true)
  = [St_error "Please enter a project topic to begin generation."]
  /\ outcome (main env topic false) = []
  /\ main env EmptyString true = main env' EmptyString true
  /\ main env topic false = main env' topic false.
Proof. repeat split. Qed.

(** X16.  A run in which both workers succeed calls each of them once, the
    formatter with the generated text and the topic, shows no error,
    offers one download, which carries the payload of the formatter
    under the file name of the topic, and ends with the number of words
    of the generated text. *)
Theorem successful_run (env : environment) (mdl : model)
    (topic txt : string) (doc_io : payload) :
  truthy topic = true ->
  get_gemini_model env = inr mdl ->
  mdl (prompt_head ++ topic ++ prompt_tail) = Ok txt ->
  text_to_word_buffer (Some txt) topic = (Some doc_io, None) ->
  outcome (main env topic true)
  = [Call_generate topic;
     Call_format (Some txt) topic;
     St_download_button "Download DOCX Report" (Some doc_io)
       (filename topic) docx_mime]
  /\ last (main env topic true) St_stop
     = St_markdown ("*(Words Generated: ~"
                    ++ str_of_nat (List.length (split_ws txt))
                    ++ " words)*").
Proof.
  intros Ht Hm Hg Hf. unfold main, generate_report_with_gemini.
  rewrite Ht, Hm, Hg. cbv beta iota delta [negb truthy_opt].
  rewrite Hf. split; reflexivity.
Qed.

(** X17.  No run shows an error and offers a download as well, and no run
    shows two errors or offers two downloads. *)
Theorem error_or_download (env : environment) (topic : string)
    (clicked : bool) :
  List.length (filter error_b (main env topic clicked)) <= 1
  /\ List.length (filter download_b (main env topic clicked)) <= 1
  /\ List.length (filter error_b (main env topic clicked))
     + List.length (filter download_b (main env topic clicked)) <= 1.
Proof.
  unfold main, generate_report_with_gemini, text_to_word_buffer.
  destruct clicked; [|simpl; lia].
  destruct (truthy topic); [|simpl; lia].
  destruct (get_gemini_model env) as [stopped|mdl] eqn:Em.
  { unfold get_gemini_model in Em.
    destruct (cached_model env); [discriminate Em|].
    destruct (initialise_model env) as [m|[|e]];
      inversion Em; subst; simpl; lia. }
  destruct (mdl (prompt_head ++ topic ++ prompt_tail)) as [txt|e];
    [|simpl; lia].
  destruct (try_body (Some txt) topic) as [doc_io|e]; simpl; lia.
Qed.

End PageProperties.

(** X19.  The file name holds neither a space nor a slash, and is twelve
    characters longer than the topic. *)
Theorem filename_safe (topic : string) :
  string_forallb
    (fun a => negb (Ascii.eqb a " "%char || Ascii.eqb a "/"%char))
    (filename topic) = true
  /\ String.length (filename topic) = String.length topic + 12.
Proof.
  unfold filename. rewrite replace_underscored. split.
  - rewrite string_forallb_append. apply andb_true_intro. split; [|reflexivity].
    induction topic as [|a t IH]; [reflexivity|].
    simpl. rewrite IH, andb_true_r.
    destruct (Ascii.eqb a " "%char) eqn:E1; [reflexivity|].
    destruct (Ascii.eqb a "/"%char) eqn:E2; [reflexivity|].
    simpl. now rewrite E1, E2.
  - rewrite length_append. simpl. f_equal.
    induction topic as [|a t IH]; simpl; congruence.
Qed.

(* ------------------------------------------------------------------ *)
(** ** The numbering a heading line is given *)

Lemma span_exists (p : ascii -> bool) (s : string) :
  exists a r, s = a ++ r /\ string_forallb p a = true /\ not_first p r.
Proof.
  induction s as [|c s (a & r & E & Ha & Hr)].
  - exists EmptyString, EmptyString. repeat split. intros x H. discriminate H.
  - destruct (p c) eqn:Pc.
    + exists (String c a), r. simpl. rewrite Pc, Ha, <- E. auto.
    + exists EmptyString, (String c s). repeat split.
      intros x H. inversion H; subst. exact Pc.
Qed.

Lemma groups_exists :
  forall n s,
    String.length s <= n -> not_first isdecimal s ->
    exists g r, s = g ++ r /\ dot_groups g
                /\ not_dot_digit r /\ not_first isdecimal r.
Proof.
  induction n as [|n IH]; intros s Hn Hs.
  - destruct s; [|simpl in Hn; lia].
    exists EmptyString, EmptyString. repeat split; [constructor| |assumption].
    intros d r _ H. discriminate H.
  - destruct s as [|c s].
    { exists EmptyString, EmptyString. repeat split; [constructor| |assumption].
      intros d r _ H. discriminate H. }
    destruct (Ascii.eqb c "."%char) eqn:Ec.
    + apply Ascii.eqb_eq in Ec. subst c.
      destruct (span_exists isdecimal s) as (d & r1 & E1 & Hd & Hr1).
      destruct d as [|x d].
      * exists EmptyString, (String "."%char s).
        repeat split; [constructor| |assumption].
        intros d' r' (Hne & Hd') H. simpl in H. inversion H as [H'].
        destruct d' as [|y d']; [congruence|].
        simpl in Hd'. apply andb_prop in Hd'. destruct Hd' as (Hy & _).
        simpl in E1. rewrite E1 in H'. rewrite H' in Hr1.
        rewrite (Hr1 y eq_refl) in Hy. discriminate Hy.
      * assert (L : String.length r1 <= n).
        { simpl in Hn. rewrite E1, length_append in Hn. simpl in Hn. lia. }
        destruct (IH r1 L Hr1) as (g & r & E & Gg & Hr & Hr').
        exists ("." ++ String x d ++ g), r. repeat split; auto.
        -- simpl. rewrite E1, E. simpl. now rewrite append_assoc.
        -- constructor; [split; [discriminate|assumption]|assumption].
    + exists EmptyString, (String c s).
      repeat split; [constructor| |assumption].
      intros d r _ H. simpl in H. inversion H; subst.
      rewrite Ascii.eqb_refl in Ec. discriminate Ec.
Qed.

Lemma first_dot_groups_longest s :
  dot_groups s ->
  forall st tl,
    rest st = s ++ tl ->
    not_first isdecimal tl -> not_dot_digit tl ->
    exists st', First (Star true dot_group_re) st st'
                /\ rest st' = tl
                /\ pos st' = pos st + String.length s
                /\ (forall i, i <> 2 ->
                      lookup_cap i (caps st') = lookup_cap i (caps st)).
Proof.
  induction 1 as [|d s Dd Gs IH]; intros st tl E Hnd Hn.
  - exists st. simpl in *. repeat split; [|assumption|lia].
    apply F_stop. intros st1 P.
    destruct (path_dot_group_inv P) as (d & Ed & Dd & _).
    rewrite E in Ed. exfalso. exact (Hn d (rest st1) Dd Ed).
  - set (st0 := advance st (d ++ s ++ tl)).
    assert (E0 : rest st0 = d ++ (s ++ tl)) by reflexivity.
    pose proof (@first_plus_digit_build d st0 (s ++ tl) Dd E0
                  (dot_groups_not_digit Gs Hnd)) as Fd.
    destruct (IH (set_cap 2 (pos st) (moved st0 d (s ++ tl))) tl eq_refl Hnd Hn)
      as (st' & F' & R' & Pos' & C').
    exists st'. repeat split; [|assumption| |].
    + eapply F_iter; [| |eassumption].
      * unfold dot_group_re. apply F_group. eapply F_seq; [|eassumption].
        eapply F_class; [reflexivity| |apply Ascii.eqb_refl].
        rewrite E. simpl. now rewrite append_assoc.
      * simpl. lia.
    + rewrite Pos'. simpl. rewrite length_append. lia.
    + intros i N. rewrite (C' i N), (lookup_cap_set_cap _ _ N). reflexivity.
Qed.

Lemma colon_eol_fails c t st :
  rest st = String c (t ++ ":") ->
  exec (Seq (Chr ":"%char) Eol) st (fun s => Some s) = None.
Proof.
  intros E. simpl. unfold exec_class. rewrite E.
  destruct (Ascii.eqb ":"%char c); [|reflexivity].
  simpl. destruct t as [|x t]; [reflexivity|].
  simpl. destruct t; reflexivity.
Qed.

Lemma exec_anychar_step st c s' k :
  rest st = String c s' -> not_LF c = true ->
  exec AnyChar st k = k (advance st s').
Proof.
  intros E Hc. simpl. unfold exec_class. rewrite E.
  unfold not_LF in Hc. now rewrite Hc.
Qed.

(** The lazy title group stops at the colon that ends the line. *)
Lemma lazy_title t :
  forall st p0 n,
    rest st = t ++ ":" ->
    string_forallb not_LF t = true ->
    String.length (rest st) <= n ->
    lazy_loop (exec AnyChar)
      (fun st' =>
         exec (Seq (Chr ":"%char) Eol) (set_cap 3 p0 st') (fun s => Some s))
      n st
    = Some (advance (set_cap 3 p0 (moved st t ":")) EmptyString).
Proof.
  induction t as [|c t IH]; intros st p0 n E Ht Hn.
  - simpl in E. rewrite (moved_nil' st E).
    assert (K : exec (Seq (Chr ":"%char) Eol) (set_cap 3 p0 st)
                  (fun s => Some s)
                = Some (advance (set_cap 3 p0 st) EmptyString)).
    { simpl. unfold exec_class. simpl. rewrite E. reflexivity. }
    destruct n; cbn [lazy_loop]; rewrite K; reflexivity.
  - simpl in Ht. apply andb_prop in Ht. destruct Ht as (Hc & Ht).
    assert (K : exec (Seq (Chr ":"%char) Eol) (set_cap 3 p0 st)
                  (fun s => Some s) = None)
      by (apply (@colon_eol_fails c t); exact E).
    destruct n as [|n]; [rewrite E in Hn; simpl in Hn; lia|].
    cbn [lazy_loop]. rewrite K. cbn [orelse].
    rewrite (@exec_anychar_step st c (t ++ ":") _ E Hc).
    assert (Lt : (pos st <? pos (advance st (t ++ ":")))%nat = true)
      by (apply Nat.ltb_lt; simpl; lia).
    rewrite Lt, moved_cons.
    apply IH; [reflexivity|assumption|].
    rewrite E in Hn. simpl in *. lia.
Qed.

Lemma dot_groups_chars g :
  dot_groups g ->
  string_forallb (fun a => isdecimal a || Ascii.eqb a "."%char || isspace a) g
  = true.
Proof.
  induction 1 as [|d s (_ & Hd) Gs IH]; [reflexivity|].
  simpl. rewrite string_forallb_append, IH, andb_true_r.
  clear - Hd. induction d as [|a d IHd]; [reflexivity|].
  simpl in *. apply andb_prop in Hd. destruct Hd as (Ha & Hd).
  now rewrite Ha, IHd.
Qed.

Lemma string_forallb_weaken (p q : ascii -> bool) s :
  (forall a, p a = true -> q a = true) ->
  string_forallb p s = true -> string_forallb q s = true.
Proof.
  intros W. induction s as [|c s IH]; [reflexivity|].
  simpl. intros H. apply andb_prop in H. destruct H as (Hc & Hs).
  now rewrite (W c Hc), IH.
Qed.

Lemma exec_seq r1 r2 st k :
  exec (Seq r1 r2) st k = exec r1 st (fun st' => exec r2 st' k).
Proof. reflexivity. Qed.

(** On a line without line feed that starts with a digit and ends with
    a colon, the pattern matches along the path tried first: group 1 is
    the longest numbering at the start of the line, the white space
    after it is skipped whole, and group 3 is the rest up to the final
    colon. *)
Lemma header_match_longest l c :
  first_char l = Some c -> isdecimal c = true ->
  last_char l = Some ":"%char ->
  string_forallb not_LF l = true ->
  exists m num ws txt,
    header_match l = Some m
    /\ l = num ++ ws ++ txt ++ ":"
    /\ group m 1 = Some num
    /\ group m 3 = Some txt
    /\ numbering num
    /\ string_forallb isspace ws = true
    /\ not_first isdecimal (ws ++ txt ++ ":")
    /\ not_dot_digit (ws ++ txt ++ ":")
    /\ not_first isspace (txt ++ ":").
Proof.
  intros Hf Hc Hz Hl.
  destruct (span_exists isdecimal l) as (d & r1 & E1 & Hd & Hr1).
  assert (Dd : digits1 d).
  { split; [|assumption]. intros ->. simpl in E1. subst r1.
    rewrite (Hr1 c Hf) in Hc. discriminate Hc. }
  destruct (groups_exists (le_n (String.length r1)) Hr1)
    as (g & r2 & E2 & Gg & Hr2 & Hr2').
  destruct (span_exists isspace r2) as (w & r3 & E3 & Hw & Hr3).
  assert (E : l = d ++ g ++ w ++ r3) by (rewrite E1, E2, E3; reflexivity).
  assert (exists t, r3 = t ++ ":") as (t & Et).
  { destruct r3 as [|x r3].
    - exfalso.
      assert (P : string_forallb
                    (fun a => isdecimal a || Ascii.eqb a "."%char || isspace a)
                    l = true).
      { assert (Pd : string_forallb
                       (fun a => isdecimal a || Ascii.eqb a "."%char
                                 || isspace a) d = true).
        { apply (@string_forallb_weaken isdecimal _ d); [|exact Hd].
          intros a Ha. now rewrite Ha. }
        assert (Pw : string_forallb
                       (fun a => isdecimal a || Ascii.eqb a "."%char
                                 || isspace a) w = true).
        { apply (@string_forallb_weaken isspace _ w); [|exact Hw].
          intros a Ha. rewrite Ha. apply orb_true_r. }
        rewrite E, !string_forallb_append, Pd, Pw, (dot_groups_chars Gg).
        reflexivity. }
      pose proof (string_forallb_last _ _ P Hz) as Q. discriminate Q.
    - apply last_char_split.
      rewrite E, <- !append_assoc, last_char_append_cons in Hz. exact Hz. }
  subst r3.
  assert (Ht : string_forallb not_LF t = true).
  { rewrite E in Hl. do 3 apply string_forallb_tail in Hl.
    rewrite string_forallb_append in Hl. apply andb_prop in Hl. apply Hl. }
  set (st0 := MState 0 l []).
  assert (E0 : rest st0 = d ++ r1) by exact E1.
  pose proof (@first_plus_digit_build d st0 r1 Dd E0 Hr1) as Fd.
  assert (Eg : rest (moved st0 d r1) = g ++ r2) by exact E2.
  destruct (@first_dot_groups_longest g Gg (moved st0 d r1) r2 Eg Hr2' Hr2)
    as (s1 & Fg & R1 & P1 & C1).
  set (s1' := set_cap 1 (pos st0) s1).
  assert (Ew : rest s1' = w ++ (t ++ ":")) by (simpl; now rewrite R1).
  pose proof (@first_star_class_build Space isspace eq_refl w s1' (t ++ ":")
                Hw Ew Hr3) as Fw.
  set (s2 := moved s1' w (t ++ ":")).
  set (fin := advance (set_cap 3 (pos s2) (moved s2 t ":")) EmptyString).
  assert (X : exec header_re st0 (fun s => Some s) = Some fin).
  { rewrite header_re_eq, exec_seq.
    apply (@first_wins Bol st0 st0 _ fin); [apply F_bol; reflexivity|].
    rewrite exec_seq.
    apply (@first_wins _ st0 s1' _ fin);
      [apply F_group; eapply F_seq; eassumption|].
    rewrite exec_seq.
    apply (@first_wins _ s1' s2 _ fin); [exact Fw|].
    rewrite exec_seq.
    apply (@lazy_title t s2 (pos s2) (String.length (rest s2)));
      [reflexivity|assumption|apply le_n]. }
  exists (MatchObject l fin), (d ++ g), w, t.
  split; [unfold header_match, re_match; fold st0; now rewrite X|].
  split; [rewrite E; now rewrite !append_assoc|].
  split.
  { unfold group. simpl. rewrite P1. simpl.
    rewrite <- length_append, Nat.sub_0_r, E, <- (append_assoc d g).
    now rewrite substring_0_append. }
  split.
  { unfold group. simpl. rewrite P1. simpl.
    replace (String.length d + String.length g + String.length w
             + String.length t
             - (String.length d + String.length g + String.length w))
      with (String.length t) by lia.
    rewrite E, <- (append_assoc d g), <- (append_assoc (d ++ g) w).
    rewrite <- !length_append, substring_skip.
    now rewrite substring_0_append. }
  split; [exists d, g; auto|].
  split; [assumption|].
  rewrite <- E3. auto.
Qed.

Section LongestNumbering.
Context {lib : Library}.

(** X2.  On a line over the alphabet of the model (no micro sign, no y
    with diaeresis, whose upper case is not a code point below 256):
    a heading line is given the longest numbering it starts with: what
    follows the numbering starts neither with a digit nor with a dot
    and a digit.  The white space after the numbering is skipped, and
    the title is the rest of the line up to the final colon, trimmed
    and in upper case; in particular a dot that closes the numbering
    ("1. Introduction:") is left in the title. *)
Theorem heading_longest_numbering (line : string) (c : ascii)
    (d d' : document) :
  string_forallb in_alphabet line = true ->
  string_forallb not_LF line = true ->
  first_char (strip line) = Some c -> isdecimal c = true ->
  last_char (strip line) = Some ":"%char ->
  format_line line d = Ok (tt, d') ->
  exists num ws txt,
    strip line = num ++ ws ++ txt ++ ":"
    /\ numbering num
    /\ string_forallb isspace ws = true
    /\ not_first isdecimal (ws ++ txt ++ ":")
    /\ not_dot_digit (ws ++ txt ++ ":")
    /\ not_first isspace (txt ++ ":")
    /\ paragraphs d'
       = (paragraphs d
          ++ [heading_paragraph (level_of num)
                (num ++ " " ++ upper (strip txt))])%list.
Proof.
  intros _ Hl Hf Hc Hz H.
  apply format_line_ok in H. destruct H as (Hp & _ & _).
  destruct (header_match_longest _ Hf Hc Hz (string_forallb_strip _ _ Hl))
    as (m & num & ws & txt & Em & E & G1 & G3 & Hn & Hw & A & B & C).
  exists num, ws, txt. repeat split; try assumption.
  rewrite Hp. do 2 f_equal. unfold render_line.
  destruct (strip line) as [|x s]; [discriminate Hf|].
  rewrite Em. unfold heading_fields. rewrite G1, G3. reflexivity.
Qed.

End LongestNumbering.

(* ------------------------------------------------------------------ *)
(** ** The workers never fail silently *)

Section Outcomes.
Context {lib : Library}.

(** X20.  Each worker returns either a value and no error, or no value and an
    error message that is not empty, so that the tests [if error:] and
    [if word_error:] of the page catch every failure, also an exception
    whose message is empty. *)
Theorem workers_value_or_error (topic : string) (mdl : model)
    (text_content : option string) :
  ((exists txt, generate_report_with_gemini topic mdl = (Some txt, None))
   \/ (exists msg, generate_report_with_gemini topic mdl = (None, Some msg)
                   /\ truthy msg = true))
  /\ ((exists doc_io,
         text_to_word_buffer text_content topic = (Some doc_io, None))
      \/ (exists msg,
            text_to_word_buffer text_content topic = (None, Some msg)
            /\ truthy msg = true)).
Proof.
  split.
  - unfold generate_report_with_gemini.
    destruct (mdl _) as [txt|e]; [left|right]; eauto.
  - unfold text_to_word_buffer.
    destruct (try_body text_content topic) as [doc_io|e]; [left|right]; eauto.
Qed.

End Outcomes.

(* ------------------------------------------------------------------ *)
(** ** The further properties at concrete inputs *)

Lemma heading_iff_digit_and_colon_witness :
  string_forallb not_LF "2024 was a good year:" = true
  /\ strip "2024 was a good year:" <> EmptyString
  /\ @format_line sample_library "2024 was a good year:" Document
     = Ok (tt, Document_ (sections Document)
                 [heading_paragraph 1 "2024 WAS A GOOD YEAR"])
  /\ exists p,
       paragraphs (Document_ (sections Document)
                     [heading_paragraph 1 "2024 WAS A GOOD YEAR"])
       = (paragraphs Document ++ [p])%list
       /\ (is_heading (block_of p)
           <-> (exists c, first_char (strip "2024 was a good year:") = Some c
                          /\ isdecimal c = true)
               /\ last_char (strip "2024 was a good year:") = Some ":"%char)
       /\ (is_heading (block_of p)
           \/ block_of p = BodyBlock (strip "2024 was a good year:")).
Proof.
  assert (H1 : string_forallb not_LF "2024 was a good year:" = true)
    by reflexivity.
  assert (H2 : strip "2024 was a good year:" <> EmptyString)
    by (vm_compute; discriminate).
  assert (H3 : @format_line sample_library "2024 was a good year:" Document
               = Ok (tt, Document_ (sections Document)
                           [heading_paragraph 1 "2024 WAS A GOOD YEAR"]))
    by (vm_compute; reflexivity).
  exact (conj H1 (conj H2 (conj H3
           (@heading_iff_digit_and_colon sample_library _ _ _ H1 H2 H3)))).
Defined.

Lemma surrounding_space_ignored_witness :
  string_forallb isspace "    " = true
  /\ string_forallb isspace (String (ascii_of_nat 13) EmptyString) = true
  /\ @format_line sample_library
       ("    " ++ "1.1 Scope:" ++ String (ascii_of_nat 13) EmptyString)
       Document
     = @format_line sample_library "1.1 Scope:" Document.
Proof.
  assert (H1 : string_forallb isspace "    " = true) by reflexivity.
  assert (H2 : string_forallb isspace (String (ascii_of_nat 13) EmptyString)
               = true) by reflexivity.
  exact (conj H1 (conj H2
           (@surrounding_space_ignored sample_library _ _ _ _ H1 H2))).
Defined.

Lemma none_text_attribute_error_witness :
  "Test" <> EmptyString
  /\ @xml_error sample_library (upper "Test") = None
  /\ @text_to_word_buffer sample_library None "Test"
     = (None,
        Some "Word Conversion Error: 'NoneType' object has no attribute 'strip'").
Proof.
  assert (H1 : "Test" <> EmptyString) by discriminate.
  assert (H2 : @xml_error sample_library (upper "Test") = None)
    by reflexivity.
  exact (conj H1 (conj H2
           (@none_text_attribute_error sample_library _ H1 H2))).
Defined.

Lemma refused_line_loses_document_witness :
  In form_feed_line (split LF (strip ("1: " ++ String LF form_feed_line)))
  /\ strip form_feed_line <> EmptyString
  /\ header_match (strip form_feed_line) = None
  /\ @xml_error sample_library (strip form_feed_line)
     = Some "All strings must be XML compatible: Unicode or ASCII, no NULL bytes or control characters"
  /\ exists e',
       @text_to_word_buffer sample_library
         (Some ("1: " ++ String LF form_feed_line)) "Test"
       = (None, Some ("Word Conversion Error: " ++ e')).
Proof.
  assert (H1 : In form_feed_line
                 (split LF (strip ("1: " ++ String LF form_feed_line))))
    by (vm_compute; auto).
  assert (H2 : strip form_feed_line <> EmptyString)
    by (vm_compute; discriminate).
  assert (H3 : header_match (strip form_feed_line) = None)
    by (vm_compute; reflexivity).
  assert (H4 : @xml_error sample_library (strip form_feed_line)
               = Some "All strings must be XML compatible: Unicode or ASCII, no NULL bytes or control characters")
    by (vm_compute; reflexivity).
  exact (conj H1 (conj H2 (conj H3 (conj H4
           (@refused_line_loses_document sample_library _ "Test" _ _
              H1 H2 H3 H4))))).
Defined.

Lemma margins_one_inch_witness :
  @built_document sample_library (Some scenario_A) "Test"
  = Ok (Document_ page_setup (render scenario_A "Test"))
  /\ sections (Document_ page_setup (render scenario_A "Test"))
     = [Section_ 914400 914400 914400 914400].
Proof.
  assert (H : @built_document sample_library (Some scenario_A) "Test"
              = Ok (Document_ page_setup (render scenario_A "Test")))
    by (vm_compute; reflexivity).
  exact (conj H (@margins_one_inch sample_library _ _ _ H)).
Defined.

Lemma every_run_styled_witness :
  @built_document sample_library (Some scenario_A) "Test"
  = Ok (Document_ page_setup (render scenario_A "Test"))
  /\ Forall (fun p => Forall styled_run (runs p)
                      /\ List.length (runs p) <= 1)
       (paragraphs (Document_ page_setup (render scenario_A "Test"))).
Proof.
  assert (H : @built_document sample_library (Some scenario_A) "Test"
              = Ok (Document_ page_setup (render scenario_A "Test")))
    by (vm_compute; reflexivity).
  exact (conj H (@every_run_styled sample_library _ _ _ H)).
Defined.

Lemma only_two_heading_levels_witness :
  @built_document sample_library (Some "1.2.3.4 Deep:") "Test"
  = Ok (Document_ page_setup (render "1.2.3.4 Deep:" "Test"))
  /\ exists line_blocks,
       blocks (Document_ page_setup (render "1.2.3.4 Deep:" "Test"))
       = TitleBlock (upper "Test") :: BlankBlock :: BlankBlock :: line_blocks
       /\ Forall line_kind line_blocks.
Proof.
  assert (H : @built_document sample_library (Some "1.2.3.4 Deep:") "Test"
              = Ok (Document_ page_setup (render "1.2.3.4 Deep:" "Test")))
    by (vm_compute; reflexivity).
  exact (conj H (@only_two_heading_levels sample_library _ _ _ H)).
Defined.

Lemma texts_compose_witness :
  strip "1 Aims:" = "1 Aims:" /\ "1 Aims:" <> EmptyString
  /\ strip "We aim." = "We aim." /\ "We aim." <> EmptyString
  /\ @built_document sample_library (Some "1 Aims:") "T"
     = Ok (Document_ page_setup (render "1 Aims:" "T"))
  /\ @built_document sample_library (Some "We aim.") "T"
     = Ok (Document_ page_setup (render "We aim." "T"))
  /\ @built_document sample_library (Some ("1 Aims:" ++ String LF "We aim."))
       "T"
     = Ok (Document_ page_setup
             (paragraphs (Document_ page_setup (render "1 Aims:" "T"))
              ++ skipn 3
                   (paragraphs
                      (Document_ page_setup (render "We aim." "T"))))).
Proof.
  assert (H1 : strip "1 Aims:" = "1 Aims:") by reflexivity.
  assert (H2 : "1 Aims:" <> EmptyString) by discriminate.
  assert (H3 : strip "We aim." = "We aim.") by reflexivity.
  assert (H4 : "We aim." <> EmptyString) by discriminate.
  assert (H5 : @built_document sample_library (Some "1 Aims:") "T"
               = Ok (Document_ page_setup (render "1 Aims:" "T")))
    by (vm_compute; reflexivity).
  assert (H6 : @built_document sample_library (Some "We aim.") "T"
               = Ok (Document_ page_setup (render "We aim." "T")))
    by (vm_compute; reflexivity).
  exact (conj H1 (conj H2 (conj H3 (conj H4 (conj H5 (conj H6
           (@texts_compose sample_library _ _ _ _ _ H1 H2 H3 H4 H5 H6))))))).
Defined.

Lemma missing_key_stops_witness :
  truthy "Test" = true
  /\ cached_model
       (Environment None (Fails KeyError) (fun _ => Done (fun _ => Ok "text")))
     = None
  /\ (secrets_GOOGLE_API_KEY
        (Environment None (Fails KeyError)
           (fun _ => Done (fun _ => Ok "text")))
      = Fails KeyError
      \/ exists api_key,
           secrets_GOOGLE_API_KEY
             (Environment None (Fails KeyError)
                (fun _ => Done (fun _ => Ok "text")))
           = Done api_key
           /\ configure
                (Environment None (Fails KeyError)
                   (fun _ => Done (fun _ => Ok "text")))
                api_key
              = Fails KeyError)
  /\ (outcome
        (@main sample_library
           (Environment None (Fails KeyError)
              (fun _ => Done (fun _ => Ok "text")))
           "Test" true)
      = [St_error "Error: GOOGLE_API_KEY not found in Streamlit secrets.";
         St_stop]
      /\ @cached_after sample_library
           (Environment None (Fails KeyError)
              (fun _ => Done (fun _ => Ok "text")))
           "Test" true
         = None).
Proof.
  assert (H1 : truthy "Test" = true) by reflexivity.
  assert (H2 : cached_model
                 (Environment None (Fails KeyError)
                    (fun _ => Done (fun _ => Ok "text")))
               = None) by reflexivity.
  assert (H3 : secrets_GOOGLE_API_KEY
                 (Environment None (Fails KeyError)
                    (fun _ => Done (fun _ => Ok "text")))
               = Fails KeyError
               \/ exists api_key,
                    secrets_GOOGLE_API_KEY
                      (Environment None (Fails KeyError)
                         (fun _ => Done (fun _ => Ok "text")))
                    = Done api_key
                    /\ configure
                         (Environment None (Fails KeyError)
                            (fun _ => Done (fun _ => Ok "text")))
                         api_key
                       = Fails KeyError)
    by (left; reflexivity).
  exact (conj H1 (conj H2 (conj H3
           (@missing_key_stops sample_library _ _ H1 H2 H3)))).
Defined.

Lemma configuration_error_stops_witness :
  truthy "Test" = true
  /\ cached_model
       (Environment None (Done "key")
          (fun _ => Fails (OtherException "invalid key")))
     = None
  /\ (secrets_GOOGLE_API_KEY
        (Environment None (Done "key")
           (fun _ => Fails (OtherException "invalid key")))
      = Fails (OtherException "invalid key")
      \/ exists api_key,
           secrets_GOOGLE_API_KEY
             (Environment None (Done "key")
                (fun _ => Fails (OtherException "invalid key")))
           = Done api_key
           /\ configure
                (Environment None (Done "key")
                   (fun _ => Fails (OtherException "invalid key")))
                api_key
              = Fails (OtherException "invalid key"))
  /\ (outcome
        (@main sample_library
           (Environment None (Done "key")
              (fun _ => Fails (OtherException "invalid key")))
           "Test" true)
      = [St_error ("Error configuring Gemini: " ++ "invalid key"); St_stop]
      /\ @cached_after sample_library
           (Environment None (Done "key")
              (fun _ => Fails (OtherException "invalid key")))
           "Test" true
         = None).
Proof.
  assert (H1 : truthy "Test" = true) by reflexivity.
  assert (H2 : cached_model
                 (Environment None (Done "key")
                    (fun _ => Fails (OtherException "invalid key")))
               = None) by reflexivity.
  assert (H3 : secrets_GOOGLE_API_KEY
                 (Environment None (Done "key")
                    (fun _ => Fails (OtherException "invalid key")))
               = Fails (OtherException "invalid key")
               \/ exists api_key,
                    secrets_GOOGLE_API_KEY
                      (Environment None (Done "key")
                         (fun _ => Fails (OtherException "invalid key")))
                    = Done api_key
                    /\ configure
                         (Environment None (Done "key")
                            (fun _ => Fails (OtherException "invalid key")))
                         api_key
                       = Fails (OtherException "invalid key"))
    by (right; exists "key"; split; reflexivity).
  exact (conj H1 (conj H2 (conj H3
           (@configuration_error_stops sample_library _ _ _ H1 H2 H3)))).
Defined.

Lemma cached_model_reused_witness :
  truthy "Test" = true
  /\ cached_model
       (Environment None (Done "key") (fun _ => Done (fun _ => Ok "1 Aims:")))
     = None
  /\ initialise_model
       (Environment None (Done "key") (fun _ => Done (fun _ => Ok "1 Aims:")))
     = Done (fun _ => Ok "1 Aims:")
  /\ cached_model
       (Environment (Some (fun _ => Ok "1 Aims:")) (Fails KeyError)
          (fun _ => Fails KeyError))
     = @cached_after sample_library
         (Environment None (Done "key")
            (fun _ => Done (fun _ => Ok "1 Aims:")))
         "Test" true
  /\ cached_model
       (Environment (Some (fun _ => Ok "1 Aims:")) (Done "key")
          (fun _ => Done (fun _ => Ok "other")))
     = @cached_after sample_library
         (Environment None (Done "key")
            (fun _ => Done (fun _ => Ok "1 Aims:")))
         "Test" true
  /\ (@cached_after sample_library
        (Environment None (Done "key")
           (fun _ => Done (fun _ => Ok "1 Aims:")))
        "Test" true
      = Some (fun _ => Ok "1 Aims:")
      /\ @get_gemini_model sample_library
           (Environment (Some (fun _ => Ok "1 Aims:")) (Fails KeyError)
              (fun _ => Fails KeyError))
         = inr (fun _ => Ok "1 Aims:")
      /\ @main sample_library
           (Environment (Some (fun _ => Ok "1 Aims:")) (Fails KeyError)
              (fun _ => Fails KeyError))
           "Again" true
         = @main sample_library
             (Environment (Some (fun _ => Ok "1 Aims:")) (Done "key")
                (fun _ => Done (fun _ => Ok "other")))
             "Again" true
      /\ @cached_after sample_library
           (Environment (Some (fun _ => Ok "1 Aims:")) (Fails KeyError)
              (fun _ => Fails KeyError))
           "Again" true
         = Some (fun _ => Ok "1 Aims:")).
Proof.
  assert (H1 : truthy "Test" = true) by reflexivity.
  assert (H2 : cached_model
                 (Environment None (Done "key")
                    (fun _ => Done (fun _ => Ok "1 Aims:")))
               = None) by reflexivity.
  assert (H3 : initialise_model
                 (Environment None (Done "key")
                    (fun _ => Done (fun _ => Ok "1 Aims:")))
               = Done (fun _ => Ok "1 Aims:")) by reflexivity.
  assert (H4 : cached_model
                 (Environment (Some (fun _ => Ok "1 Aims:")) (Fails KeyError)
                    (fun _ => Fails KeyError))
               = @cached_after sample_library
                   (Environment None (Done "key")
                      (fun _ => Done (fun _ => Ok "1 Aims:")))
                   "Test" true) by reflexivity.
  assert (H5 : cached_model
                 (Environment (Some (fun _ => Ok "1 Aims:")) (Done "key")
                    (fun _ => Done (fun _ => Ok "other")))
               = @cached_after sample_library
                   (Environment None (Done "key")
                      (fun _ => Done (fun _ => Ok "1 Aims:")))
                   "Test" true) by reflexivity.
  exact (conj H1 (conj H2 (conj H3 (conj H4 (conj H5
           (@cached_model_reused sample_library _ _ _ _ _ "Again" true
              H1 H2 H3 H4 H5)))))).
Defined.

Lemma successful_run_witness :
  truthy "A/B Test" = true
  /\ @get_gemini_model sample_library
       (Environment None (Done "key")
          (fun _ => Done (fun _ => Ok "1 Aims:")))
     = inr (fun _ => Ok "1 Aims:")
  /\ (fun _ : string => @Ok string "1 Aims:")
       (prompt_head ++ "A/B Test" ++ prompt_tail)
     = Ok "1 Aims:"
  /\ @text_to_word_buffer sample_library (Some "1 Aims:") "A/B Test"
     = (Some (Document_ page_setup (render "1 Aims:" "A/B Test")), None)
  /\ (outcome
        (@main sample_library
           (Environment None (Done "key")
          (fun _ => Done (fun _ => Ok "1 Aims:")))
           "A/B Test" true)
      = [Call_generate "A/B Test";
         Call_format (Some "1 Aims:") "A/B Test";
         @St_download_button sample_library "Download DOCX Report"
           (Some (Document_ page_setup (render "1 Aims:" "A/B Test")))
           (filename "A/B Test") docx_mime]
      /\ last
           (@main sample_library
              (Environment None (Done "key")
          (fun _ => Done (fun _ => Ok "1 Aims:")))
              "A/B Test" true)
           St_stop
         = St_markdown ("*(Words Generated: ~"
                        ++ str_of_nat (List.length (split_ws "1 Aims:"))
                        ++ " words)*")).
Proof.
  assert (H1 : truthy "A/B Test" = true) by reflexivity.
  assert (H2 : @get_gemini_model sample_library
                 (Environment None (Done "key")
                    (fun _ => Done (fun _ => Ok "1 Aims:")))
               = inr (fun _ => Ok "1 Aims:")) by reflexivity.
  assert (H3 : (fun _ : string => @Ok string "1 Aims:")
                 (prompt_head ++ "A/B Test" ++ prompt_tail)
               = Ok "1 Aims:") by reflexivity.
  assert (H4 : @text_to_word_buffer sample_library (Some "1 Aims:") "A/B Test"
               = (Some (Document_ page_setup (render "1 Aims:" "A/B Test")),
                  None))
    by (vm_compute; reflexivity).
  exact (conj H1 (conj H2 (conj H3 (conj H4
           (@successful_run sample_library _ _ _ _ _ H1 H2 H3 H4))))).
Defined.

Lemma heading_longest_numbering_witness :
  string_forallb in_alphabet numbered_line = true
  /\ string_forallb not_LF numbered_line = true
  /\ first_char (strip numbered_line) = Some "1"%char
  /\ isdecimal "1"%char = true
  /\ last_char (strip numbered_line) = Some ":"%char
  /\ @format_line sample_library numbered_line Document
     = Ok (tt, Document_ (sections Document)
                 [heading_paragraph 1
                    ("1 . R" ++ String (ascii_of_nat 201) "SUM"
                     ++ String (ascii_of_nat 201) " STRASSE")])
  /\ exists num ws txt,
       strip numbered_line = num ++ ws ++ txt ++ ":"
       /\ numbering num
       /\ string_forallb isspace ws = true
       /\ not_first isdecimal (ws ++ txt ++ ":")
       /\ not_dot_digit (ws ++ txt ++ ":")
       /\ not_first isspace (txt ++ ":")
       /\ paragraphs (Document_ (sections Document)
                        [heading_paragraph 1
                           ("1 . R" ++ String (ascii_of_nat 201) "SUM"
                            ++ String (ascii_of_nat 201) " STRASSE")])
          = (paragraphs Document
             ++ [heading_paragraph (level_of num)
                   (num ++ " " ++ upper (strip txt))])%list.
Proof.
  assert (H0 : string_forallb in_alphabet numbered_line = true)
    by reflexivity.
  assert (H1 : string_forallb not_LF numbered_line = true)
    by reflexivity.
  assert (H2 : first_char (strip numbered_line) = Some "1"%char)
    by reflexivity.
  assert (H3 : isdecimal "1"%char = true) by reflexivity.
  assert (H4 : last_char (strip numbered_line) = Some ":"%char)
    by reflexivity.
  assert (H5 : @format_line sample_library numbered_line Document
               = Ok (tt, Document_ (sections Document)
                           [heading_paragraph 1
                              ("1 . R" ++ String (ascii_of_nat 201) "SUM"
                               ++ String (ascii_of_nat 201) " STRASSE")]))
    by (vm_compute; reflexivity).
  exact (conj H0 (conj H1 (conj H2 (conj H3 (conj H4 (conj H5
           (@heading_longest_numbering sample_library _ _ _ _
              H0 H1 H2 H3 H4 H5))))))).
Defined.
